(** * Endoscopy-classification plugins: loss, heads and crop transforms

    Shallow embedding of
    - [src/mmcls/datasets/pipelines/processing.py]  (RandomCrop,
      RandomResizedCrop; RandomGrayscale, RandomErasing.random_patch, Pad,
      ResizeEdge, Normalize, Lighting, Albu.mapper),
    - [src/mmpretrain/models/heads/dos_head.py], [cosen_linear_head.py],
    - [src/mmpretrain/models/losses/crl_loss.py]    (CRLLoss).

    Python exceptions are values of [exn]; a computation that may raise has
    type [res A].  Integers are [Z], positions and class indices are [nat].
    A module is modelled with the names it binds: a reference to a global
    name raises NameError where the module binds none.  Library code that
    is not part of the repository (mmcv, torch losses) enters as section
    variables. *)

From Stdlib Require Import Ascii String ZifyNat.
From stdpp Require Import gmap strings list.

(** ** Exceptions and results *)

Inductive exn : Type :=
| SyntaxError
| NameError (name : string)
| AssertionError
| IndexError
| KeyError (key : string)
| TypeError
| ValueError.

Inductive res (A : Type) : Type :=
| Ok (a : A)
| Raise (e : exn).
Arguments Ok {A} a.
Arguments Raise {A} e.

#[global] Instance res_ret : MRet res := fun A a => Ok a.
#[global] Instance res_bind : MBind res := fun A B f m =>
  match m with
  | Ok a => f a
  | Raise e => Raise e
  end.

Definition returns {A} (m : res A) : Prop := exists a, m = Ok a.
Definition raises {A} (m : res A) : Prop := exists e, m = Raise e.

(** [assert c] *)
Definition py_assert (c : bool) : res unit :=
  if c then Ok tt else Raise AssertionError.

(** [l[i]] on a Python list or tensor, for a non-negative position. *)
Definition index {A} (l : list A) (i : nat) : res A :=
  match l !! i with
  | Some x => Ok x
  | None => Raise IndexError
  end.

(** ** processing.py *)

Module Processing.
Local Open Scope string_scope.

(** [np.random.randint(low, high)]: a value of [low, high) chosen by the
    generator's raw draw [d]; numpy raises ValueError when [low >= high]. *)
Definition randint (low high d : Z) : res Z :=
  if (low <? high)%Z then Ok (low + d mod (high - low))%Z else Raise ValueError.

(** [h, w = img.shape[:2]] *)
Definition shape_hw (shape : list Z) : res (Z * Z) :=
  match shape with
  | h :: w :: _ => Ok (h, w)
  | _ => Raise ValueError
  end.

(** RandomCrop.rand_crop_params, lines 87-109.  [d1], [d2] are the two
    generator draws. *)
Definition rand_crop_params (crop_size : Z * Z) (shape : list Z) (d1 d2 : Z)
  : res (Z * Z * Z * Z) :=
  '(h, w) ← shape_hw shape;
  let '(target_h, target_w) := crop_size in
  if ((w =? target_w) && (h =? target_h))%Z then Ok (0, 0, h, w)%Z
  else
    let '(target_h, target_w) :=
      if ((w <? target_w) || (h <? target_h))%Z
      then (Z.min w target_h, Z.min w target_w)
      else (target_h, target_w) in
    offset_h ← randint 0 (h - target_h + 1) d1;
    offset_w ← randint 0 (w - target_w + 1) d2;
    Ok (offset_h, offset_w, target_h, target_w).

(** The crop rectangle lies inside an image of height [h] and width [w]. *)
Definition crop_inside (h w : Z) (p : Z * Z * Z * Z) : Prop :=
  let '(offset_h, offset_w, target_h, target_w) := p in
  (0 <= offset_h <= h - target_h /\ 0 <= offset_w <= w - target_w /\
   target_h <= h /\ target_w <= w)%Z.

(** Values stored in a results dict: an image (ndarray), a shape tuple, or
    any other object. *)
Inductive pyval (image : Type) : Type :=
| VImage (img : image)
| VShape (shape : list Z)
| VObj (tag : Z).
Arguments VImage {image} img.
Arguments VShape {image} shape.
Arguments VObj {image} tag.

Record RandomCrop := {
  crop_size : Z * Z;
  padding : option (list Z);
  pad_if_needed : bool;
  pad_val : list Z;
  padding_mode : string
}.

Record RandomResizedCrop := {
  scale : Z * Z;
  max_attempts : nat;
  interpolation : string;
  backend : string
}.

(** What one iteration of the attempt loop of
    RandomResizedCrop.rand_crop_params obtains from the generator and the
    floating-point unit: the rounded candidate size and two integer draws. *)
Record attempt := {
  cand_w : Z;
  cand_h : Z;
  draw_h : Z;
  draw_w : Z
}.

Section Transforms.
Context {image : Type}.
(** [img.shape] *)
Variable shape_of : image -> list Z.
(** [mmcv.impad(img, padding=, pad_val=, padding_mode=)] *)
Variable impad : image -> list Z -> list Z -> string -> res image.
(** [mmcv.imcrop(img, bboxes)] *)
Variable imcrop : image -> list Z -> res image.
(** [mmcv.imresize(img, size, interpolation=, backend=)] *)
Variable imresize : image -> Z * Z -> string -> string -> res image.
(** Lines 259-268 of RandomResizedCrop.rand_crop_params: the central-crop
    size [(target_h, target_w)] computed in floating point from [h], [w]. *)
Variable central_size : Z -> Z -> Z * Z.

(** [results[key]] *)
Definition getitem (results : gmap string (pyval image)) (key : string)
  : res (pyval image) :=
  match results !! key with
  | Some v => Ok v
  | None => Raise (KeyError key)
  end.

(** The value under 'img' is used as an ndarray; anything else is
    rejected. *)
Definition as_image (v : pyval image) : res image :=
  match v with
  | VImage img => Ok img
  | _ => Raise TypeError
  end.

(** [math.ceil(max(0, c - s) / 2)] *)
Definition half_pad (c s : Z) : Z := ((Z.max 0 (c - s) + 1) / 2)%Z.

(** RandomCrop.transform, lines 111-148. *)
Definition RandomCrop_transform (self : RandomCrop)
    (results : gmap string (pyval image)) (d1 d2 : Z)
  : res (gmap string (pyval image)) :=
  v ← getitem results "img";
  img ← as_image v;
  img ← match padding self with
        | Some p => impad img p (pad_val self) "constant"
        | None => Ok img
        end;
  img ← (if pad_if_needed self then
           '(h, w) ← shape_hw (shape_of img);
           let h_pad := half_pad (fst (crop_size self)) h in
           let w_pad := half_pad (snd (crop_size self)) w in
           impad img [w_pad; h_pad; w_pad; h_pad] (pad_val self)
                 (padding_mode self)
         else Ok img);
  '(offset_h, offset_w, target_h, target_w) ←
     rand_crop_params (crop_size self) (shape_of img) d1 d2;
  img ← imcrop img [offset_w; offset_h;
                    offset_w + target_w - 1; offset_h + target_h - 1]%Z;
  Ok (<["img_shape" := VShape (shape_of img)]>
        (<["img" := VImage img]> results)).

(** The attempt loop of RandomResizedCrop.rand_crop_params, lines 244-256. *)
Fixpoint rrc_attempts (h w : Z) (tries : list attempt)
  : option (res (Z * Z * Z * Z)) :=
  match tries with
  | [] => None
  | t :: tries' =>
    let target_w := cand_w t in
    let target_h := cand_h t in
    if ((0 <? target_w) && (target_w <=? w) &&
        (0 <? target_h) && (target_h <=? h))%Z
    then Some (offset_h ← randint 0 (h - target_h + 1) (draw_h t);
               offset_w ← randint 0 (w - target_w + 1) (draw_w t);
               Ok (offset_h, offset_w, target_h, target_w))
    else rrc_attempts h w tries'
  end.

(** RandomResizedCrop.rand_crop_params, lines 230-271; [tries] holds what
    the generator yields in each of the [max_attempts] iterations. *)
Definition rrc_rand_crop_params (self : RandomResizedCrop)
    (shape : list Z) (tries : list attempt) : res (Z * Z * Z * Z) :=
  '(h, w) ← shape_hw shape;
  match rrc_attempts h w (take (max_attempts self) tries) with
  | Some r => r
  | None =>
    let '(target_h, target_w) := central_size h w in
    let offset_h := ((h - target_h) / 2)%Z in
    let offset_w := ((w - target_w) / 2)%Z in
    Ok (offset_h, offset_w, target_h, target_w)
  end.

(** RandomResizedCrop.transform, lines 273-299. *)
Definition RandomResizedCrop_transform (self : RandomResizedCrop)
    (results : gmap string (pyval image)) (tries : list attempt)
  : res (gmap string (pyval image)) :=
  v ← getitem results "img";
  img ← as_image v;
  '(offset_h, offset_w, target_h, target_w) ←
     rrc_rand_crop_params self (shape_of img) tries;
  img ← imcrop img [offset_w; offset_h;
                    offset_w + target_w - 1; offset_h + target_h - 1]%Z;
  img ← imresize img (snd (scale self), fst (scale self))
                 (interpolation self) (backend self);
  Ok (<["img_shape" := VShape (shape_of img)]>
        (<["img" := VImage img]> results)).

(** What a transform may do to the dict: store an image under 'img' and its
    shape under 'img_shape', and leave every other key alone. *)
Definition frame_of (results results' : gmap string (pyval image)) : Prop :=
  (forall key, key <> "img" -> key <> "img_shape" ->
     results' !! key = results !! key) /\
  exists img, results' !! "img" = Some (VImage img) /\
              results' !! "img_shape" = Some (VShape (shape_of img)).

End Transforms.

End Processing.

(** ** Module namespaces and name resolution *)

Module Names.
Local Open Scope string_scope.

(** The module-level statements that bind names. *)
Inductive top_stmt : Type :=
| Import (path : list string) (asname : option string)
| FromImport (module : string) (names : list string)
| Def (name : string)
| ClassDef (name : string).

(** [import a.b.c] binds [a]; [import a.b.c as x] binds only [x]. *)
Definition binds (s : top_stmt) : list string :=
  match s with
  | Import path (Some x) => [x]
  | Import path None => take 1 path
  | FromImport _ names => names
  | Def name => [name]
  | ClassDef name => [name]
  end.

Definition module_globals (m : list top_stmt) : list string :=
  concat (map binds m).

(** The builtins the three modules refer to. *)
Definition builtins : list string :=
  ["print"; "len"; "range"; "enumerate"; "super"; "isinstance"; "dict";
   "zip"; "min"; "max"; "TypeError"].

(** A global (or builtin) name is looked up when the line executes. *)
Definition load_global (G : list string) (name : string) : res string :=
  if bool_decide (name ∈ (G ++ builtins)%list) then Ok name
  else Raise (NameError name).

(** Global references made by a path of execution, as (line, name), resolved
    in order; the first unbound one raises. *)
Fixpoint resolve (G : list string) (refs : list (nat * string)) : res unit :=
  match refs with
  | [] => Ok tt
  | (_, name) :: refs' => _ ← load_global G name; resolve G refs'
  end.

(** The first reference of a path that names nothing in [G], with its
    line: where [resolve] stops. *)
Fixpoint first_unbound (G : list string) (refs : list (nat * string))
  : option (nat * string) :=
  match refs with
  | [] => None
  | (line, name) :: refs' =>
    if bool_decide (name ∈ (G ++ builtins)%list) then first_unbound G refs'
    else Some (line, name)
  end.

(** Bracket scanner of the tokenizer: the stack of open brackets after a
    piece of source text ([None] on a closer that matches nothing); a
    comment runs to the end of its line. *)
Definition closer_of (c : ascii) : option ascii :=
  if Ascii.eqb c "(" then Some ")"%char
  else if Ascii.eqb c "[" then Some "]"%char
  else if Ascii.eqb c "{" then Some "}"%char
  else None.

Definition is_closer (c : ascii) : bool :=
  Ascii.eqb c ")" || Ascii.eqb c "]" || Ascii.eqb c "}".

Fixpoint scan_brackets (s : string) (stack : list ascii)
  : option (list ascii) :=
  match s with
  | EmptyString => Some stack
  | String c s' =>
    if Ascii.eqb c "#" then Some stack
    else match closer_of c with
         | Some d => scan_brackets s' (d :: stack)
         | None =>
           if is_closer c then
             match stack with
             | d :: stack' =>
               if Ascii.eqb c d then scan_brackets s' stack' else None
             | [] => None
             end
           else scan_brackets s' stack
         end
  end.

(** A logical line is complete when every bracket it opens is closed. *)
Definition line_complete (s : string) : bool :=
  match scan_brackets s [] with
  | Some [] => true
  | _ => false
  end.

(** Byte-compiling a module: every statement header and simple statement
    must be a complete logical line. *)
Definition py_compile (lines : list string) : res unit :=
  if forallb line_complete lines then Ok tt else Raise SyntaxError.

End Names.

(** ** dos_head.py and cosen_linear_head.py *)

Module Heads.
Import Names.
Local Open Scope string_scope.

(** A Python object, known by the class names on its method resolution
    order. *)
Record pyobj := { mro : list string }.

Definition isinstance (o : pyobj) (cls : string) : bool :=
  bool_decide (cls ∈ mro o).

Record head := { loss_module : pyobj }.

(** dos_head.py, lines 1-9. *)
Definition dos_head_module : list top_stmt :=
  [ Import ["torch"] None;
    Import ["torch"; "nn"] (Some "nn");
    FromImport "typing" ["Optional"; "Tuple"];
    FromImport "mmpretrain.registry" ["MODELS"];
    FromImport ".linear_head" ["LinearClsHead"];
    ClassDef "DOSHead" ].

(** cosen_linear_head.py, lines 1-13. *)
Definition cosen_linear_head_module : list top_stmt :=
  [ FromImport "typing" ["Optional"; "Tuple"; "List"];
    FromImport "mmpretrain.structures" ["DataSample"];
    Import ["torch"] None;
    Import ["torch"; "nn"] (Some "nn");
    FromImport "mmpretrain.registry" ["MODELS"];
    FromImport ".linear_head" ["LinearClsHead"];
    FromImport "..losses.cosen_ce_loss" ["CoSenCrossEntropyLoss"];
    ClassDef "CoSenLinearClsHead" ].

(** DOSHead.__init__, lines 11-23.  [parent] is the outcome of the
    inherited constructor called on line 17, which builds [loss_module]
    from the [loss] configuration. *)
Definition DOSHead_init (G : list string) (parent : res pyobj) : res head :=
  lm ← parent;
  cls ← load_global G "DOSLoss";
  if isinstance lm cls then Ok {| loss_module := lm |}
  else Raise TypeError.

(** CoSenLinearClsHead.__init__, lines 22-27. *)
Definition CoSenLinearClsHead_init (G : list string) (parent : res pyobj)
  : res head :=
  lm ← parent;
  cls ← load_global G "CoSenCrossEntropyLoss";
  if isinstance lm cls then Ok {| loss_module := lm |}
  else Raise TypeError.

End Heads.

(** ** crl_loss.py *)

Module CrlLoss.
Import Names.
Local Open Scope string_scope.

(** *** The module as written: bindings, references, source lines *)

(** Lines 1-46: the names the module binds. *)
Definition crl_loss_module : list top_stmt :=
  [ Import ["torch"; "nn"] (Some "nn");
    Import ["torch"; "nn"; "functional"] (Some "F");
    FromImport "mmpretrain.registry" ["MODELS"];
    FromImport ".utils" ["weight_reduce_loss"];
    Import ["heapq"] None;
    Def "cross_entropy";
    ClassDef "CRLLoss" ].

Definition crl_loss_globals : list string := module_globals crl_loss_module.

(** The same namespace after an added [import torch]. *)
Definition with_torch (G : list string) : list string := "torch" :: G.

(** The statements of lines 146-164 (comments and indentation dropped),
    each one logical line. *)
Definition lines_146_164 : list string :=
  [ "max_pred, max_pred_lab = cls_score[min_labels_mask].max(dim=1)";
    "print(max_pred_lab)";
    "max_thrs_mask = torch.ne(max_pred_lab, labels[ind])";
    "print(max_thrs_mask)";
    "hard_neg_ind = torch.nonzero(max_thrs_mask)";
    "print(hard_ned_ind)";
    "for i, idx in enumerate(hard_ned_ind):";
    "if (len(hard_samples[0][max_pred_lab[idx]]) >= self.k) and  (max_pred[idx] > hard_samples[0][max_pred_lab[idx]][0][0]:";
    "heapq.heappop(hard_samples[0][max_pred_lab[idx]])";
    "heapq.heappush(hard_samples[0][max_pred_lab[idx]], [max_pred[lab], idx])";
    "elif len(hard_samples[0][max_pred_lab[idx]]) < self.k:";
    "heapq.heappush(hard_samples[0][max_pred_lab[idx]], [max_pred[lab], idx])";
    "print(hard_samples)" ].

(** Which branch of lines 159-163 an iteration takes. *)
Inductive branch : Type := br_replace | br_insert | br_skip.

(** Global names loaded by one iteration of the loop of lines 158-163. *)
Definition iteration_refs (b : branch) : list (nat * string) :=
  [(159, "len")] ++
  match b with
  | br_replace => [(160, "heapq"); (161, "heapq"); (161, "lab")]
  | br_insert => [(162, "len"); (163, "heapq"); (163, "lab")]
  | br_skip => [(162, "len")]
  end.

(** Global names loaded by CRLLoss.forward as written, in execution order,
    when the loop of line 158 makes the iterations [iters] (line 159 taken
    with its parenthesis closed; as it stands the module does not compile,
    see [lines_146_164]). *)
Definition forward_refs (iters : list branch) : list (nat * string) :=
  [(129, "print"); (130, "print"); (133, "torch"); (134, "print");
   (137, "torch"); (138, "print"); (141, "range"); (141, "range");
   (141, "len"); (141, "range"); (141, "len"); (147, "print");
   (150, "torch"); (150, "labels"); (151, "print"); (154, "torch");
   (155, "print"); (155, "hard_ned_ind"); (158, "enumerate");
   (158, "hard_ned_ind")] ++
  concat (map iteration_refs iters) ++
  [(164, "print")].

(** CRLLoss.forward as written, up to the return on line 180: the assert of
    line 110, then the global loads of [forward_refs]. *)
Definition forward_as_written (G : list string)
    (reduction_override : option string) (iters : list branch) : res unit :=
  _ ← py_assert (bool_decide (reduction_override ∈
                   [None; Some "none"; Some "mean"; Some "sum"]));
  resolve G (forward_refs iters).

(** *** The loss object and forward *)

Section Loss.
Context {float tensor : Type}.

Record CRLLoss := {
  use_sigmoid : bool;
  use_soft : bool;
  reduction : string;
  loss_weight : float;
  class_weight : option (list float);
  pos_weight : option (list float);
  cls_criterion : string;
  k : Z;
  min_classes : list nat
}.

(** CRLLoss.__init__, lines 72-101, in the namespace [G]; the criterion is
    kept by the name of the function it is bound to. *)
Definition CRLLoss_init (G : list string) (min_classes : list nat) (k : Z)
    (use_sigmoid use_soft : bool) (reduction : string) (loss_weight : float)
    (class_weight pos_weight : option (list float)) : res CRLLoss :=
  _ ← load_global G "super";
  _ ← load_global G "CRLLoss";
  _ ← py_assert (negb (use_soft && use_sigmoid));
  crit ← (if use_sigmoid then load_global G "binary_cross_entropy"
          else if use_soft then load_global G "soft_cross_entropy"
          else load_global G "cross_entropy");
  _ ← load_global G "torch";
  Ok {| use_sigmoid := use_sigmoid; use_soft := use_soft;
        reduction := reduction; loss_weight := loss_weight;
        class_weight := class_weight; pos_weight := pos_weight;
        cls_criterion := crit; k := k; min_classes := min_classes |}.

(** [F.cross_entropy(pred, label, weight=class_weight, reduction='none')] *)
Variable F_cross_entropy :
  tensor -> tensor -> option (list float) -> res tensor.
(** [weight_reduce_loss(loss, weight=, reduction=, avg_factor=)] of
    losses/utils.py *)
Variable weight_reduce_loss :
  tensor -> option tensor -> string -> option Z -> res tensor.
(** [weight.float()] *)
Variable to_float : tensor -> tensor.
(** [loss_weight * loss] *)
Variable scale_loss : float -> tensor -> tensor.
(** A criterion other than [cross_entropy], by name, with its keyword
    arguments. *)
Variable other_criterion :
  string -> tensor -> tensor -> option tensor ->
  option (list float) -> string -> option Z -> list string -> res tensor.






End Loss.

End CrlLoss.

(** ** Sample inputs

    A batch of three examples with two class scores each, every label the
    minority class 1, and a CRLLoss object with [min_classes = [1]] and
    [k = 2].  Tensors are flattened to lists of integers. *)

Module Samples.
Import Processing CrlLoss.
Local Open Scope string_scope.




(** An image known by its shape alone, with mmcv's effect on shapes. *)
Definition shape_impad (img : list Z) (p _ : list Z) (_ : string)
  : res (list Z) :=
  match img, p with
  | h :: w :: rest, [l; t; r; b] => Ok ((h + t + b) :: (w + l + r) :: rest)%Z
  | _, _ => Raise ValueError
  end.

Definition shape_imcrop (img : list Z) (bbox : list Z) : res (list Z) :=
  match img, bbox with
  | _ :: _ :: rest, [x1; y1; x2; y2] =>
    Ok ((y2 - y1 + 1) :: (x2 - x1 + 1) :: rest)%Z
  | _, _ => Raise ValueError
  end.

Definition shape_imresize (img : list Z) (size : Z * Z) (_ _ : string)
  : res (list Z) :=
  match img with
  | _ :: _ :: rest => Ok (size.2 :: size.1 :: rest)
  | _ => Raise ValueError
  end.

Definition sample_results : gmap string (pyval (list Z)) :=
  <["img" := VImage [8; 6; 3]%Z]> (<["gt_label" := VObj 2]> ∅).

Definition sample_crop : RandomCrop :=
  {| crop_size := (4, 4)%Z; padding := None; pad_if_needed := true;
     pad_val := [0%Z]; padding_mode := "constant" |}.

End Samples.

(** ** processing.py: construction, and the transforms beside the two crops *)

Module Pipelines.
Local Open Scope string_scope.

(** *** RandomCrop.__init__ *)

(** A [crop_size] argument: an int, or a sequence of ints. *)
Inductive size_arg : Type :=
| IntArg (n : Z)
| SeqArg (l : list Z).

(** RandomCrop.__init__, lines 67-85. *)
Definition RandomCrop_init (crop_size : size_arg) (padding : option (list Z))
    (pad_if_needed : bool) (pad_val : list Z) (padding_mode : string)
  : res Processing.RandomCrop :=
  crop_size ← match crop_size with
              | SeqArg l =>
                _ ← py_assert (length l =? 2)%nat;
                a ← index l 0;
                b ← index l 1;
                _ ← py_assert ((0 <? a) && (0 <? b))%Z;
                Ok (a, b)
              | IntArg n =>
                _ ← py_assert (0 <? n)%Z;
                Ok (n, n)
              end;
  _ ← py_assert (bool_decide
         (padding_mode ∈ ["constant"; "edge"; "reflect"; "symmetric"]));
  Ok {| Processing.crop_size := crop_size;
        Processing.padding := padding;
        Processing.pad_if_needed := pad_if_needed;
        Processing.pad_val := pad_val;
        Processing.padding_mode := padding_mode |}.

(** *** Exceptions and values of the other transforms *)

(** The exceptions of [exn], and two more that these transforms raise. *)
Inductive error : Type :=
| Py (e : exn)
| AttributeError
| ZeroDivisionError.

Inductive outcome (A : Type) : Type :=
| Done (a : A)
| Throw (e : error).
Arguments Done {A} a.
Arguments Throw {A} e.

#[global] Instance outcome_ret : MRet outcome := fun A a => Done a.
#[global] Instance outcome_bind : MBind outcome := fun A B f m =>
  match m with
  | Done a => f a
  | Throw e => Throw e
  end.

Definition lift {A} (m : res A) : outcome A :=
  match m with
  | Ok a => Done a
  | Raise e => Throw (Py e)
  end.

(** What a results dict holds: an ndarray, a tuple of ints, a tuple of
    floats, a list of keys, the dict that Normalize records, or an object
    of no such kind. *)
Inductive value (image float : Type) : Type :=
| Array (img : image)
| Ints (t : list Z)
| Floats (t : list float)
| Strs (l : list string)
| NormCfg (mean std : list float) (to_rgb : bool)
| Other (tag : Z).
Arguments Array {image float} img.
Arguments Ints {image float} t.
Arguments Floats {image float} t.
Arguments Strs {image float} l.
Arguments NormCfg {image float} mean std to_rgb.
Arguments Other {image float} tag.

(** The attributes of each transform object. *)
Module Pad.
Record t := {
  size : option (Z * Z);
  pad_to_square : bool;
  pad_val : list Z;
  padding_mode : string
}.
End Pad.

Module ResizeEdge.
Record t := {
  edge : string;
  scale : Z;
  backend : string;
  interpolation : string
}.
End ResizeEdge.

Module Normalize.
Record t (float : Type) := {
  mean : list float;
  std : list float;
  to_rgb : bool
}.
Arguments mean {float} _.
Arguments std {float} _.
Arguments to_rgb {float} _.
End Normalize.

Module Lighting.
Record t (float : Type) := {
  eigval : list float;
  eigvec : list (list float);
  alphastd : float;
  to_rgb : bool
}.
Arguments eigval {float} _.
Arguments eigvec {float} _.
Arguments alphastd {float} _.
Arguments to_rgb {float} _.
End Lighting.

(** RandomErasing.random_patch, lines 466-481.  [raw_h] and [raw_w] are the
    rounded sides [int(round(np.sqrt(...)))] that the floating-point unit
    yields from the generator's draws, [d1] and [d2] the draws of the two
    randint calls. *)
Definition random_patch (img_h img_w raw_h raw_w d1 d2 : Z)
  : res (Z * Z * Z * Z) :=
  let h := Z.min raw_h img_h in
  let w := Z.min raw_w img_w in
  top ← (if (h <? img_h)%Z then Processing.randint 0 (img_h - h) d1
         else Ok 0%Z);
  left ← (if (w <? img_w)%Z then Processing.randint 0 (img_w - w) d2
          else Ok 0%Z);
  Ok (top, left, h, w).

Section Transforms.
Context {image float : Type}.
Local Abbreviation value := (value image float).
Local Abbreviation dict := (gmap string value).

(** [img.shape] *)
Variable shape_of : image -> list Z.

(** [results[key]] *)
Definition lookup_key (results : dict) (key : string) : outcome value :=
  match results !! key with
  | Some v => Done v
  | None => Throw (Py (KeyError key))
  end.

(** Reading [.shape] needs an ndarray. *)
Definition as_array (v : value) : outcome image :=
  match v with
  | Array img => Done img
  | _ => Throw AttributeError
  end.

(** [results.get('img_fields', ['img'])]: 'img_fields', when present, holds
    a list of keys. *)
Definition img_fields (results : dict) : outcome (list string) :=
  match results !! "img_fields" with
  | None => Done ["img"]
  | Some (Strs keys) => Done keys
  | Some _ => Throw (Py TypeError)
  end.

(** [for key in keys: body] on the dict. *)
Fixpoint foreach (keys : list string) (body : string -> dict -> outcome dict)
    (results : dict) : outcome dict :=
  match keys with
  | [] => Done results
  | key :: keys' => results ← body key results; foreach keys' body results
  end.

(** **** RandomGrayscale *)

(** [np.dstack([mmcv.rgb2gray(img)[:, :, None] for _ in range(n)])] *)
Variable gray_stack : image -> Z -> outcome image.

(** The loop of RandomGrayscale.__call__, lines 346-356, from its [i]-th
    iteration on; [below i] tells whether the [i]-th call of
    [random.random()] fell below [gray_prob]. *)
Fixpoint RandomGrayscale_loop (below : nat -> bool) (i : nat)
    (keys : list string) (results : dict) : outcome dict :=
  match keys with
  | [] => Done results
  | key :: keys' =>
    v ← lookup_key results key;
    img ← as_array v;
    num_output_channels ← lift (index (shape_of img) 2);
    if below i && (1 <? num_output_channels)%Z then
      gray ← gray_stack img num_output_channels;
      Done (<[key := Array gray]> results)
    else
      RandomGrayscale_loop below (S i) keys' (<[key := v]> results)
  end.

(** RandomGrayscale.__call__, lines 338-356. *)
Definition RandomGrayscale_call (below : nat -> bool) (results : dict)
  : outcome dict :=
  keys ← img_fields results;
  RandomGrayscale_loop below 0 keys results.

(** The [i]-th iteration, on the field [key], converts nothing: the field
    holds an image whose draw is not below [gray_prob] or which has one
    channel. *)
Definition not_converted (below : nat -> bool) (results : dict) (i : nat)
    (key : string) : Prop :=
  exists img n,
    results !! key = Some (Array img) /\ shape_of img !! 2 = Some n /\
    below i && (1 <? n)%Z = false.

(** **** Pad *)

(** [mmcv.impad(img, shape=, pad_val=, padding_mode=)] *)
Variable impad_shape :
  value -> option (Z * Z) -> list Z -> string -> outcome image.

(** Pad.__init__, lines 529-540. *)
Definition Pad_init (size : option (Z * Z)) (pad_to_square : bool)
    (pad_val : list Z) (padding_mode : string) : res Pad.t :=
  _ ← py_assert (xorb (bool_decide (size = None)) (negb pad_to_square));
  Ok {| Pad.size := size; Pad.pad_to_square := pad_to_square;
        Pad.pad_val := pad_val; Pad.padding_mode := padding_mode |}.

(** Lines 545-549: the size an image is padded to. *)
Definition target_size (self : Pad.t) (img : value)
  : outcome (option (Z * Z)) :=
  if Pad.pad_to_square self then
    arr ← as_array img;
    h ← lift (index (shape_of arr) 0);
    w ← lift (index (shape_of arr) 1);
    Done (Some (Z.max h w, Z.max h w))
  else Done (Pad.size self).

(** Pad.__call__, lines 542-557. *)
Definition Pad_call (self : Pad.t) (results : dict) : outcome dict :=
  keys ← img_fields results;
  foreach keys (fun key results =>
    img ← lookup_key results key;
    size ← target_size self img;
    img ← impad_shape img size (Pad.pad_val self) (Pad.padding_mode self);
    Done (<["img_shape" := Ints (shape_of img)]>
            (<[key := Array img]> results))) results.

(** **** ResizeEdge *)

(** [mmcv.imresize(img, size, interpolation=, return_scale=True, backend=)] *)
Variable imresize_scale :
  value -> value -> string -> string -> outcome (image * float * float).
(** [int(a / b)] where the quotient is not exact in double precision *)
Variable wide_quotient : Z -> Z -> outcome Z.

(** ResizeEdge.__init__, lines 597-608. *)
Definition ResizeEdge_init (scale : Z) (edge backend interpolation : string)
  : res ResizeEdge.t :=
  _ ← py_assert (bool_decide (edge ∈ ["short"; "long"; "width"; "height"]));
  Ok {| ResizeEdge.edge := edge; ResizeEdge.scale := scale;
        ResizeEdge.backend := backend;
        ResizeEdge.interpolation := interpolation |}.

(** [int(a / b)] for ints [a], [b]: true division, then truncation toward
    zero.  With both operands below 2**53 in magnitude the double nearest
    to [a / b] truncates to the integer quotient. *)
Definition int_truediv (a b : Z) : outcome Z :=
  if (b =? 0)%Z then Throw ZeroDivisionError
  else if ((Z.abs a <? 2 ^ 53) && (Z.abs b <? 2 ^ 53))%Z then Done (a ÷ b)%Z
  else wide_quotient a b.

(** Lines 637-647: the requested [(width, height)]. *)
Definition edge_scale (self : ResizeEdge.t) (h w : Z) : outcome (Z * Z) :=
  let edge := ResizeEdge.edge self in
  let scale := ResizeEdge.scale self in
  if (String.eqb edge "short" && (w <? h)%Z) ||
     (String.eqb edge "long" && (h <? w)%Z) ||
     String.eqb edge "width"
  then
    let width := scale in
    height ← int_truediv (scale * h) w;
    Done (width, height)
  else
    let height := scale in
    width ← int_truediv (scale * w) h;
    Done (width, height).

(** ResizeEdge._resize_img, lines 610-622. *)
Definition _resize_img (self : ResizeEdge.t) (results : dict)
  : outcome dict :=
  img ← lookup_key results "img";
  scale ← lookup_key results "scale";
  '(img, w_scale, h_scale) ←
     imresize_scale img scale (ResizeEdge.interpolation self)
                    (ResizeEdge.backend self);
  let results := <["img" := Array img]> results in
  let results := <["img_shape" := Ints (take 2 (shape_of img))]> results in
  let results :=
    <["scale" := Ints (reverse (take 2 (shape_of img)))]> results in
  Done (<["scale_factor" := Floats [w_scale; h_scale]]> results).

(** ResizeEdge.transform, lines 624-651. *)
Definition ResizeEdge_transform (self : ResizeEdge.t) (results : dict)
  : outcome dict :=
  _ ← lift (py_assert (bool_decide (is_Some (results !! "img"))));
  v ← lookup_key results "img";
  img ← as_array v;
  '(h, w) ← lift (Processing.shape_hw (shape_of img));
  '(width, height) ← edge_scale self h w;
  _resize_img self (<["scale" := Ints [width; height]]> results).

(** **** Normalize and Lighting *)

(** [mmcv.imnormalize(img, mean, std, to_rgb)] *)
Variable imnormalize :
  value -> list float -> list float -> bool -> outcome image.
(** [mmcv.adjust_lighting(img, eigval, eigvec, alphastd=, to_rgb=)] *)
Variable adjust_lighting :
  value -> list float -> list (list float) -> float -> bool -> outcome image.

(** Normalize.__call__, lines 683-689. *)
Definition Normalize_call (self : Normalize.t float) (results : dict)
  : outcome dict :=
  keys ← img_fields results;
  results ← foreach keys (fun key results =>
    v ← lookup_key results key;
    img ← imnormalize v (Normalize.mean self) (Normalize.std self)
                      (Normalize.to_rgb self);
    Done (<[key := Array img]> results)) results;
  Done (<["img_norm_cfg" := NormCfg (Normalize.mean self) (Normalize.std self)
                                    (Normalize.to_rgb self)]> results).

(** Lighting.__call__, lines 780-789. *)
Definition Lighting_call (self : Lighting.t float) (results : dict)
  : outcome dict :=
  keys ← img_fields results;
  foreach keys (fun key results =>
    img ← lookup_key results key;
    img ← adjust_lighting img (Lighting.eigval self) (Lighting.eigvec self)
                          (Lighting.alphastd self) (Lighting.to_rgb self);
    Done (<[key := Array img]> results)) results.

End Transforms.

End Pipelines.

(** ** processing.py: Albu.mapper

    The function walks the dict it renames, so a dict is the list of its
    items in insertion order, keys distinct. *)

Module Albu.
Local Open Scope string_scope.

Section Dicts.
Context {V : Type}.

(** [d.get(k)] *)
Fixpoint get (d : list (string * V)) (k : string) : option V :=
  match d with
  | [] => None
  | (k', v) :: d' => if String.eqb k' k then Some v else get d' k
  end.

(** [d[k] = v]: a key already present keeps its place. *)
Fixpoint setitem (d : list (string * V)) (k : string) (v : V)
  : list (string * V) :=
  match d with
  | [] => [(k, v)]
  | (k', v') :: d' =>
    if String.eqb k' k then (k', v) :: d' else (k', v') :: setitem d' k v
  end.

End Dicts.

(** [keymap.get(k, k)] *)
Definition new_key (keymap : list (string * string)) (k : string) : string :=
  default k (get keymap k).

(** Albu.mapper, lines 890-906; [d[k]] is the value [v] that [d.values()]
    pairs with [k]. *)
Definition mapper {V} (d : list (string * V)) (keymap : list (string * string))
  : list (string * V) :=
  foldl (fun updated_dict '(k, v) => setitem updated_dict (new_key keymap k) v)
        [] d.

(** Line 856 of Albu.__init__: [{v: k for k, v in keymap_to_albu.items()}] *)
Definition keymap_back (keymap_to_albu : list (string * string))
  : list (string * string) :=
  foldl (fun back '(k, v) => setitem back v k) [] keymap_to_albu.

(** Lines 850-855 of Albu.__init__: the default when [keymap] is None or
    empty. *)
Definition keymap_to_albu (keymap : option (list (string * string)))
  : list (string * string) :=
  match keymap with
  | Some (item :: keymap') => item :: keymap'
  | _ => [("img", "image")]
  end.

End Albu.

(** ** The loss methods of the two heads *)

Module HeadLoss.
Import Names Heads.
Local Open Scope string_scope.

Section Loss.
Context {tensor sample feats : Type}.

(** ['gt_score' in sample] *)
Variable has_gt_score : sample -> bool.
(** [torch.stack([i.gt_score for i in data_samples])] *)
Variable stack_gt_score : list sample -> res tensor.
(** [torch.cat([i.gt_label for i in data_samples])] *)
Variable cat_gt_label : list sample -> res tensor.
(** [target.ndim] *)
Variable ndim : tensor -> nat.
(** [Accuracy.calculate(cls_score, target, topk=self.topk)], and the items
    [{f'accuracy_top-{k}': a for k, a in zip(self.topk, acc)}] merged into
    [losses] *)
Variable accuracy_calculate : tensor -> tensor -> list Z -> res (list tensor).
Variable update_accuracy :
  list (string * tensor) -> list Z -> list tensor -> list (string * tensor).

(** Lines 48-55 of cosen_linear_head.py and 37-43 of dos_head.py: the
    accuracy branch shared by the two methods. *)
Definition accuracy_branch (G : list string) (cal_acc : bool)
    (topk : list Z) (cls_score target : tensor)
    (losses : list (string * tensor)) : res (list (string * tensor)) :=
  if cal_acc then
    _ ← py_assert (ndim target =? 1)%nat;
    _ ← load_global G "Accuracy";
    acc ← accuracy_calculate cls_score target topk;
    _ ← load_global G "zip";
    Ok (update_accuracy losses topk acc)
  else Ok losses.

(** [self.loss_module(cls_score, target, **kwargs)] *)
Variable cosen_loss_module : tensor -> tensor -> list string -> res tensor.

(** CoSenLinearClsHead._get_loss, lines 31-57, in the namespace [G]. *)
Definition CoSenLinearClsHead_get_loss (G : list string) (cal_acc : bool)
    (topk : list Z) (cls_score : tensor) (data_samples : list sample)
    (kwargs : list string) : res (list (string * tensor) * tensor) :=
  first ← index data_samples 0;
  _ ← load_global G "torch";
  target ← (if has_gt_score first then stack_gt_score data_samples
            else cat_gt_label data_samples);
  _ ← load_global G "dict";
  loss ← cosen_loss_module cls_score target kwargs;
  losses ← accuracy_branch G cal_acc topk cls_score target [("loss", loss)];
  Ok (losses, cls_score).

(** [self(deep_feats)] *)
Variable head_call : feats -> res tensor.
(** [self.loss_module(deep_feats, cls_score, target, n, w)] *)
Variable dos_loss_module :
  feats -> tensor -> tensor -> list Z -> list Z -> res tensor.

(** DOSHead.loss, lines 27-45, in the namespace [G]. *)
Definition DOSHead_loss (G : list string) (cal_acc : bool) (topk : list Z)
    (deep_feats : feats) (data_samples : list sample) (n w : list Z)
  : res (list (string * tensor)) :=
  cls_score ← head_call deep_feats;
  _ ← load_global G "torch";
  target ← cat_gt_label data_samples;
  _ ← load_global G "dict";
  loss ← dos_loss_module deep_feats cls_score target n w;
  accuracy_branch G cal_acc topk cls_score target [("loss", loss)].

End Loss.

End HeadLoss.

(** ** Sample dicts and stand-ins for mmcv

    Images known by their shape alone, floats carried as integers. *)

Module PipelineSamples.
Import Pipelines.
Local Open Scope string_scope.

Definition sample_gray_stack (img : list Z) (n : Z) : outcome (list Z) :=
  Done img.

Definition sample_impad_shape (img : value (list Z) Z)
    (size : option (Z * Z)) (_ : list Z) (_ : string) : outcome (list Z) :=
  match img, size with
  | Array (h :: w :: rest), Some (th, tw) =>
    Done (Z.max h th :: Z.max w tw :: rest)
  | _, _ => Throw (Py ValueError)
  end.

Definition sample_imresize_scale (img size : value (list Z) Z)
    (_ _ : string) : outcome (list Z * Z * Z) :=
  match img, size with
  | Array (h :: w :: rest), Ints [tw; th] => Done (th :: tw :: rest, tw, th)
  | _, _ => Throw (Py ValueError)
  end.

Definition sample_wide_quotient (a b : Z) : outcome Z := Done (a ÷ b)%Z.

Definition sample_imnormalize (img : value (list Z) Z) (_ _ : list Z)
    (_ : bool) : outcome (list Z) :=
  match img with
  | Array img => Done img
  | _ => Throw (Py TypeError)
  end.

Definition sample_adjust_lighting (img : value (list Z) Z) (_ : list Z)
    (_ : list (list Z)) (_ : Z) (_ : bool) : outcome (list Z) :=
  match img with
  | Array img => Done img
  | _ => Throw (Py TypeError)
  end.

(** A dict with one image, and one with two image fields. *)
Definition one_image : gmap string (value (list Z) Z) :=
  <["img" := Array [4; 6; 3]%Z]> (<["gt_label" := Other 2]> ∅).

Definition two_images : gmap string (value (list Z) Z) :=
  <["img_fields" := Strs ["img"; "img2"]]>
    (<["img" := Array [4; 6; 3]%Z]> (<["img2" := Array [5; 5; 3]%Z]> ∅)).

Definition empty_image : gmap string (value (list Z) Z) :=
  <["img" := Array [0; 6; 3]%Z]> ∅.

Definition sample_pad : Pad.t :=
  {| Pad.size := None; Pad.pad_to_square := true; Pad.pad_val := [0%Z];
     Pad.padding_mode := "constant" |}.

Definition sample_resize : ResizeEdge.t :=
  {| ResizeEdge.edge := "short"; ResizeEdge.scale := 2;
     ResizeEdge.backend := "cv2"; ResizeEdge.interpolation := "bilinear" |}.

Definition sample_normalize : Normalize.t Z :=
  {| Normalize.mean := [151; 102; 97]%Z; Normalize.std := [70; 55; 54]%Z;
     Normalize.to_rgb := true |}.

Definition sample_lighting : Lighting.t Z :=
  {| Lighting.eigval := [1]%Z; Lighting.eigvec := [[1]]%Z;
     Lighting.alphastd := 1%Z; Lighting.to_rgb := true |}.

End PipelineSamples.

(** * Properties *)

(** ** Results *)

Lemma bind_Ok {A B} (m : res A) (f : A -> res B) (b : B) :
  m ≫= f = Ok b -> exists a, m = Ok a /\ f a = Ok b.
Proof. destruct m as [a|e]; simpl; [eauto | discriminate]. Qed.

Lemma index_Ok {A} (l : list A) (i : nat) (x : A) :
  index l i = Ok x <-> l !! i = Some x.
Proof. unfold index. destruct (l !! i); split; congruence. Qed.

(** Splits a hypothesis [m ≫= f = Ok b] into its two steps. *)
Ltac bind_inv H :=
  let a := fresh "a" in
  let Ha := fresh "Ha" in
  apply bind_Ok in H; destruct H as (a & Ha & H).

(** ** processing.py *)

Section ProcessingFacts.
Import Processing.
Local Open Scope Z_scope.

Lemma randint_range low high d v :
  randint low high d = Ok v -> low <= v < high.
Proof.
  unfold randint. destruct (Z.ltb_spec low high); [|discriminate].
  intros [= <-]. pose proof (Z.mod_pos_bound d (high - low)). lia.
Qed.

(** Whenever RandomCrop.rand_crop_params returns, the crop is inside the
    image. *)
Lemma rand_crop_params_inside crop h w rest d1 d2 p :
  rand_crop_params crop (h :: w :: rest) d1 d2 = Ok p -> crop_inside h w p.
Proof.
  unfold rand_crop_params. simpl. destruct crop as [ch cw].
  destruct ((w =? cw) && (h =? ch)) eqn:E.
  - intros [= <-]. simpl. lia.
  - destruct (if (w <? cw) || (h <? ch) then _ else _) as [th tw].
    intros H. bind_inv H. bind_inv H. injection H as <-.
    apply randint_range in Ha, Ha0. simpl. lia.
Qed.

Lemma rand_crop_params_inside_witness : crop_inside 5 5 (1, 2, 3, 3).
Proof.
  apply (rand_crop_params_inside (3, 3) 5 5 [3] 1 2). reflexivity.
Defined.

(** C8, at the input with h = 2, w = 5 and crop_size = (3, 3): whatever the
    generator draws, RandomCrop.rand_crop_params raises ValueError, because
    line 104 clamps the target height to the image width. *)
Theorem rand_crop_params_narrow_raises :
  forall d1 d2 : Z,
    Processing.rand_crop_params (3, 3) [2; 5; 3] d1 d2 = Raise ValueError.
Proof. intros d1 d2. reflexivity. Qed.

(** The same slip whenever the height alone is below the crop height. *)
Lemma rand_crop_params_short_raises ch cw h w rest d1 d2 :
  h < ch <= w ->
  rand_crop_params (ch, cw) (h :: w :: rest) d1 d2 = Raise ValueError.
Proof.
  intros H. unfold rand_crop_params. simpl.
  replace (h =? ch) with false by lia. rewrite andb_false_r.
  replace (h <? ch) with true by lia. rewrite orb_true_r.
  unfold randint. replace (0 <? h - w `min` ch + 1) with false by lia.
  reflexivity.
Qed.

Lemma rand_crop_params_short_raises_witness :
  rand_crop_params (4, 3) [2; 6; 3] 0 0 = Raise ValueError.
Proof.
  apply (rand_crop_params_short_raises 4 3 2 6 [3] 0 0). lia.
Defined.

End ProcessingFacts.

Section TransformFacts.
Import Processing.
Local Open Scope string_scope.
Context {image : Type}.
Variable shape_of : image -> list Z.
Variable impad : image -> list Z -> list Z -> string -> res image.
Variable imcrop : image -> list Z -> res image.
Variable imresize : image -> Z * Z -> string -> string -> res image.
Variable central_size : Z -> Z -> Z * Z.

Lemma store_img_frame (results : gmap string (pyval image)) img :
  frame_of shape_of results
    (<["img_shape" := VShape (shape_of img)]> (<["img" := VImage img]> results)).
Proof.
  split.
  - intros key H1 H2. by rewrite !lookup_insert_ne.
  - exists img. split.
    + rewrite lookup_insert_ne by done. apply lookup_insert_eq.
    + apply lookup_insert_eq.
Qed.

(** C9: when RandomCrop.transform or RandomResizedCrop.transform returns,
    every key other than 'img' and 'img_shape' maps to what it mapped to in
    the input dict (absent keys stay absent), 'img' holds an image and
    'img_shape' holds the shape of that image. *)
Theorem transforms_modify_img_and_shape_only :
  forall (results results' : gmap string (pyval image)),
    ((exists self d1 d2,
        RandomCrop_transform shape_of impad imcrop self results d1 d2
        = Ok results') \/
     (exists self tries,
        RandomResizedCrop_transform shape_of imcrop imresize central_size
          self results tries = Ok results')) ->
    is_Some (results !! "img") /\ frame_of shape_of results results'.
Proof.
  intros results results' [(self & d1 & d2 & H) | (self & tries & H)].
  - unfold RandomCrop_transform in H.
    bind_inv H. split.
    { unfold getitem in Ha. destruct (results !! "img"); [eauto | discriminate]. }
    bind_inv H. bind_inv H. bind_inv H. bind_inv H.
    destruct a3 as [[[oh ow] th] tw]. bind_inv H.
    injection H as <-. apply store_img_frame.
  - unfold RandomResizedCrop_transform in H.
    bind_inv H. split.
    { unfold getitem in Ha. destruct (results !! "img"); [eauto | discriminate]. }
    bind_inv H. bind_inv H.
    destruct a1 as [[[oh ow] th] tw]. bind_inv H. bind_inv H.
    injection H as <-. apply store_img_frame.
Qed.

End TransformFacts.

Section TransformWitness.
Import Processing Samples.
Local Open Scope string_scope.

Lemma transforms_modify_img_and_shape_only_witness :
  is_Some (sample_results !! "img") /\
  frame_of (fun s : list Z => s) sample_results
    (<["img_shape" := VShape [4; 4; 3]%Z]>
       (<["img" := VImage [4; 4; 3]%Z]> sample_results)).
Proof.
  apply (transforms_modify_img_and_shape_only (fun s => s) shape_impad
           shape_imcrop shape_imresize (fun h w => (h, w))).
  left. exists sample_crop, 7%Z, 9%Z. reflexivity.
Defined.

End TransformWitness.

(** ** Heads *)

Section HeadFacts.
Import Names Heads.
Local Open Scope string_scope.

(** C7, at any loss module (a DOSLoss instance included): once the
    inherited constructor has returned, DOSHead.__init__ raises NameError on
    line 22, because dos_head.py never binds [DOSLoss]; it neither raises
    the TypeError of line 23 nor completes. *)
Theorem DOSHead_init_raises_NameError :
  forall lm : pyobj,
    Heads.DOSHead_init (module_globals dos_head_module) (Ok lm)
    = Raise (NameError "DOSLoss").
Proof. intros lm. reflexivity. Qed.

(** The sibling head imports its loss class, and its check works: TypeError
    exactly when the loss module is no CoSenCrossEntropyLoss. *)
Lemma CoSenLinearClsHead_init_spec (lm : pyobj) :
  CoSenLinearClsHead_init (module_globals cosen_linear_head_module) (Ok lm)
  = if isinstance lm "CoSenCrossEntropyLoss"
    then Ok {| loss_module := lm |} else Raise TypeError.
Proof. reflexivity. Qed.

Lemma DOSHead_init_never_returns (parent : res pyobj) :
  raises (DOSHead_init (module_globals dos_head_module) parent).
Proof. destruct parent as [lm|e]; eexists; reflexivity. Qed.

End HeadFacts.

(** ** crl_loss.py as written *)

Section AsWritten.
Import Names CrlLoss.
Local Open Scope string_scope.

Lemma resolve_Ok G refs :
  resolve G refs = Ok tt <->
  Forall (fun r => load_global G r.2 = Ok r.2) refs.
Proof.
  induction refs as [|[line name] refs IH]; simpl.
  - split; [constructor | reflexivity].
  - rewrite Forall_cons, <- IH. simpl. unfold load_global.
    case_bool_decide; simpl; [tauto | split; [discriminate | intros [? _]; discriminate]].
Qed.

Lemma line_159_open :
  scan_brackets
    "if (len(hard_samples[0][max_pred_lab[idx]]) >= self.k) and  (max_pred[idx] > hard_samples[0][max_pred_lab[idx]][0][0]:"
    [] = Some [")"%char].
Proof. reflexivity. Qed.

Lemma CRLLoss_init_as_written_raises {float : Type} mc kv us uf red
    (lw : float) cw pw :
  exists e, CRLLoss_init crl_loss_globals mc kv us uf red lw cw pw = Raise e /\
            (e = AssertionError \/ exists name, e = NameError name).
Proof.
  destruct us, uf; eexists; (split; [reflexivity|]); eauto.
Qed.

Lemma forward_as_written_raises ro iters :
  exists e, forward_as_written crl_loss_globals ro iters = Raise e /\
            (e = AssertionError \/ e = NameError "torch").
Proof.
  unfold forward_as_written, py_assert.
  destruct (bool_decide _); simpl.
  - exists (NameError "torch"). split; [reflexivity | by right].
  - exists AssertionError. split; [reflexivity | by left].
Qed.

(** C2: crl_loss.py does not compile (line 159 leaves a parenthesis open);
    in the namespace the module binds, [torch], [labels], [hard_ned_ind] and
    [lab] are unbound, CRLLoss.__init__ raises on every input, and
    CRLLoss.forward raises on every input and every path through its loop;
    in any namespace where forward gets to its return, [torch], [labels]
    and [hard_ned_ind] are bound, and [lab] too once an iteration pushes. *)
Theorem CRLLoss_as_written_never_returns :
  py_compile lines_146_164 = Raise SyntaxError /\
  Forall (fun name => load_global crl_loss_globals name = Raise (NameError name))
         ["torch"; "labels"; "hard_ned_ind"; "lab"] /\
  (forall (float : Type) mc kv us uf red (lw : float) cw pw,
      raises (CRLLoss_init crl_loss_globals mc kv us uf red lw cw pw)) /\
  (forall ro iters, raises (forward_as_written crl_loss_globals ro iters)) /\
  (forall G ro iters,
      forward_as_written G ro iters = Ok tt ->
      Forall (fun name => load_global G name = Ok name)
             ["torch"; "labels"; "hard_ned_ind"] /\
      (Exists (fun b => b <> br_skip) iters -> load_global G "lab" = Ok "lab")).
Proof.
  split; [reflexivity|].
  split; [repeat constructor|].
  split.
  { intros. destruct (CRLLoss_init_as_written_raises mc kv us uf red lw cw pw)
      as (e & He & _). by exists e. }
  split.
  { intros. destruct (forward_as_written_raises ro iters) as (e & He & _).
    by exists e. }
  intros G ro iters H. unfold forward_as_written in H. bind_inv H.
  destruct a. apply resolve_Ok in H. unfold forward_refs in H.
  rewrite !Forall_app in H. destruct H as (Hpre & Hit & _).
  split.
  - repeat constructor.
    + exact (Forall_lookup_1 _ _ 2 (133, "torch") Hpre eq_refl).
    + exact (Forall_lookup_1 _ _ 13 (150, "labels") Hpre eq_refl).
    + exact (Forall_lookup_1 _ _ 17 (155, "hard_ned_ind") Hpre eq_refl).
  - intros Hex. apply Exists_exists in Hex as (b & Hb & Hne).
    rewrite Forall_concat, Forall_map in Hit.
    rewrite Forall_forall in Hit. specialize (Hit b Hb).
    destruct b; [| |congruence].
    + exact (Forall_lookup_1 _ _ 3 (161, "lab") Hit eq_refl).
    + exact (Forall_lookup_1 _ _ 3 (163, "lab") Hit eq_refl).
Qed.

(** With every referenced name bound, forward as written runs to its
    return: the condition above is not empty. *)
Lemma forward_as_written_bound_returns :
  forward_as_written
    ("labels" :: "hard_ned_ind" :: "lab" :: with_torch crl_loss_globals)
    None [br_insert; br_replace; br_skip] = Ok tt.
Proof. reflexivity. Qed.

End AsWritten.

(** ** crl_loss.py: where the mining section stops *)

Section MiningAsWritten.
Import Names CrlLoss Samples.
Local Open Scope string_scope.



(** C1 (code defect): on every path, forward as written stops at line 133,
    its first reference to [torch], before line 141 creates [hard_samples];
    with [torch] imported it stops at [labels] on line 150, and with
    [labels] bound as well at [hard_ned_ind] on line 155.  The loop of line
    158 therefore handles no record, and no collection of hard negatives is
    maintained. *)
Theorem mining_stops_before_loop :
  forall iters,
    first_unbound crl_loss_globals (forward_refs iters)
    = Some (133, "torch") /\
    first_unbound (with_torch crl_loss_globals) (forward_refs iters)
    = Some (150, "labels") /\
    first_unbound ("labels" :: with_torch crl_loss_globals)
                  (forward_refs iters)
    = Some (155, "hard_ned_ind").
Proof. intros iters. repeat split; reflexivity. Qed.







End MiningAsWritten.

(** ** processing.py: when the crop parameters exist *)

Section CropFacts.
Import Processing Pipelines.
Local Open Scope Z_scope.

Lemma rand_crop_params_returns_cond ch cw h w rest d1 d2 :
  Z.min w ch <= h ->
  returns (rand_crop_params (ch, cw) (h :: w :: rest) d1 d2).
Proof.
  intros Hle. unfold rand_crop_params, returns. simpl.
  destruct ((w =? cw) && (h =? ch)) eqn:E; [eauto|].
  destruct ((w <? cw) || (h <? ch)) eqn:E2; unfold randint.
  - replace (0 <? h - Z.min w ch + 1) with true by lia.
    replace (0 <? w - Z.min w cw + 1) with true by lia. simpl. eauto.
  - apply orb_false_iff in E2 as [E3 E4].
    replace (0 <? h - ch + 1) with true by lia.
    replace (0 <? w - cw + 1) with true by lia. simpl. eauto.
Qed.

(** RandomCrop.rand_crop_params returns exactly when the image is at least
    as high as the crop or at least as high as it is wide
    ([min(w, crop_size[0]) <= h]); on every other image it raises
    ValueError. *)
Theorem rand_crop_params_returns_iff :
  forall ch cw h w rest d1 d2,
    if Z.min w ch <=? h
    then returns (rand_crop_params (ch, cw) (h :: w :: rest) d1 d2)
    else rand_crop_params (ch, cw) (h :: w :: rest) d1 d2 = Raise ValueError.
Proof.
  intros ch cw h w rest d1 d2.
  destruct (Z.leb_spec (Z.min w ch) h) as [Hle|Hlt].
  - by apply rand_crop_params_returns_cond.
  - unfold rand_crop_params. simpl.
    replace (h =? ch) with false by lia. rewrite andb_false_r.
    replace (h <? ch) with true by lia. rewrite orb_true_r.
    unfold randint. replace (0 <? h - Z.min w ch + 1) with false by lia.
    reflexivity.
Qed.

(** What a returned tuple looks like: the whole image, or offsets drawn for
    the target size of lines 102-104. *)
Lemma rand_crop_params_Ok ch cw h w rest d1 d2 oh ow th tw :
  rand_crop_params (ch, cw) (h :: w :: rest) d1 d2 = Ok (oh, ow, th, tw) ->
  (oh = 0 /\ ow = 0 /\ th = h /\ tw = w /\ h = ch /\ w = cw) \/
  (0 <= oh <= h - th /\ 0 <= ow <= w - tw /\
   (th, tw) = if (w <? cw) || (h <? ch) then (Z.min w ch, Z.min w cw)
              else (ch, cw)).
Proof.
  unfold rand_crop_params. simpl.
  destruct ((w =? cw) && (h =? ch)) eqn:E.
  - apply andb_true_iff in E as [E1 E2]. intros [= <- <- <- <-]. left. lia.
  - destruct (if (w <? cw) || (h <? ch) then _ else _) as [th' tw'] eqn:Et.
    intros H. bind_inv H. bind_inv H. injection H as <- <- <- <-.
    apply randint_range in Ha, Ha0. right. split; [lia|]. split; [lia|done].
Qed.

Lemma half_pad_covers c s : c <= s + 2 * half_pad c s.
Proof.
  unfold half_pad.
  pose proof (Z.div_mod (Z.max 0 (c - s) + 1) 2 ltac:(lia)).
  pose proof (Z.mod_pos_bound (Z.max 0 (c - s) + 1) 2 ltac:(lia)). lia.
Qed.

(** After the padding of lines 127-134 ([h_pad] rows above and below,
    [w_pad] columns left and right), rand_crop_params returns a crop of
    exactly [crop_size] inside the padded image. *)
Lemma rand_crop_params_after_padding :
  forall ch cw h w rest d1 d2,
    let h' := h + 2 * half_pad ch h in
    let w' := w + 2 * half_pad cw w in
    exists oh ow,
      rand_crop_params (ch, cw) (h' :: w' :: rest) d1 d2
      = Ok (oh, ow, ch, cw) /\
      crop_inside h' w' (oh, ow, ch, cw).
Proof.
  intros ch cw h w rest d1 d2 h' w'.
  pose proof (half_pad_covers ch h) as Hh.
  pose proof (half_pad_covers cw w) as Hw.
  fold h' in Hh. fold w' in Hw. clearbody h' w'.
  pose proof (rand_crop_params_returns_cond ch cw h' w' rest d1 d2) as Hret.
  destruct Hret as [[[[oh ow] th] tw] Hp]; [lia|].
  destruct (rand_crop_params_Ok _ _ _ _ _ _ _ _ _ _ _ Hp)
    as [(-> & -> & -> & -> & -> & ->) | (Hoh & How & Ht)].
  - exists 0, 0. split; [done|]. simpl. lia.
  - replace (w' <? cw) with false in Ht by lia.
    replace (h' <? ch) with false in Ht by lia. simpl in Ht.
    injection Ht as -> ->. exists oh, ow. split; [done|]. simpl. lia.
Qed.

Lemma RandomCrop_init_Ok cs pad pin pv pm self :
  RandomCrop_init cs pad pin pv pm = Ok self ->
  0 < (crop_size self).1 /\ 0 < (crop_size self).2 /\
  padding_mode self ∈ ["constant"; "edge"; "reflect"; "symmetric"]%string /\
  match cs with
  | IntArg n => crop_size self = (n, n)
  | SeqArg l => l = [(crop_size self).1; (crop_size self).2]
  end /\
  padding self = pad /\ pad_if_needed self = pin /\ pad_val self = pv /\
  padding_mode self = pm.
Proof.
  unfold RandomCrop_init. intros H. bind_inv H. rename a into c.
  bind_inv H. injection H as <-. simpl.
  unfold py_assert in Ha0. case_bool_decide as Hpm; [|discriminate].
  destruct cs as [n|l].
  - bind_inv Ha. injection Ha as <-. simpl.
    unfold py_assert in Ha1. destruct (Z.ltb_spec 0 n); [|discriminate].
    auto 10.
  - bind_inv Ha. bind_inv Ha. bind_inv Ha. bind_inv Ha. injection Ha as <-.
    simpl. unfold py_assert in Ha1, Ha4.
    destruct (Nat.eqb_spec (length l) 2) as [Hl|]; [|discriminate].
    destruct (0 <? a1) eqn:E1; [|discriminate].
    destruct (0 <? a2) eqn:E2; [|discriminate].
    apply index_Ok in Ha2, Ha3.
    destruct l as [|x [|y [|z l]]]; try discriminate.
    simpl in Ha2, Ha3. injection Ha2 as ->. injection Ha3 as ->.
    repeat split; [lia | lia | done].
Qed.

(** For a RandomCrop object that the constructor has built and an image of
    positive width, every crop that rand_crop_params returns is a non-empty
    rectangle inside the image, no larger than [crop_size]. *)
Theorem RandomCrop_crop_nonempty :
  forall cs pad pin pv pm self h w rest d1 d2 oh ow th tw,
    RandomCrop_init cs pad pin pv pm = Ok self ->
    0 < w ->
    rand_crop_params (crop_size self) (h :: w :: rest) d1 d2
    = Ok (oh, ow, th, tw) ->
    0 < th <= (crop_size self).1 /\ 0 < tw <= (crop_size self).2 /\
    0 <= oh /\ oh + th <= h /\ 0 <= ow /\ ow + tw <= w.
Proof.
  intros cs pad pin pv pm self h w rest d1 d2 oh ow th tw Hinit Hw H.
  apply RandomCrop_init_Ok in Hinit as (Hch & Hcw & _).
  destruct (crop_size self) as [ch cw]. simpl in Hch, Hcw.
  destruct (rand_crop_params_Ok _ _ _ _ _ _ _ _ _ _ _ H)
    as [(-> & -> & -> & -> & -> & ->) | (Hoh & How & Ht)]; simpl; [lia|].
  destruct ((w <? cw) || (h <? ch)); injection Ht as -> ->; lia.
Qed.

Lemma RandomCrop_crop_nonempty_witness :
  (0 < 3 <= 3 /\ 0 < 3 <= 3 /\ 0 <= 1 /\ 1 + 3 <= 5 /\ 0 <= 2 /\ 2 + 3 <= 5).
Proof.
  apply (RandomCrop_crop_nonempty (IntArg 3) None false [0] "constant"
           {| crop_size := (3, 3); padding := None; pad_if_needed := false;
              pad_val := [0]; padding_mode := "constant" |}
           5 5 [3] 1 2 1 2 3 3); [reflexivity | lia | reflexivity].
Defined.

(** When the attempt loop of RandomResizedCrop.rand_crop_params accepts a
    candidate size (line 252), lines 253-256 return without raising: both
    randint calls have a non-empty range, and the crop is a non-empty
    rectangle inside the image. *)
Theorem rrc_accepted_crop_inside :
  forall h w tries r,
    rrc_attempts h w tries = Some r ->
    exists oh ow th tw,
      r = Ok (oh, ow, th, tw) /\ 0 < th /\ 0 < tw /\
      crop_inside h w (oh, ow, th, tw).
Proof.
  intros h w tries r.
  induction tries as [|t tries IH]; simpl; [done|].
  destruct ((0 <? cand_w t) && (cand_w t <=? w) && (0 <? cand_h t) &&
            (cand_h t <=? h)) eqn:E; [|exact IH].
  intros [= <-].
  repeat (apply andb_true_iff in E as [E ?]).
  unfold randint.
  replace (0 <? h - cand_h t + 1) with true by lia.
  replace (0 <? w - cand_w t + 1) with true by lia. simpl.
  do 4 eexists. split; [reflexivity|].
  pose proof (Z.mod_pos_bound (draw_h t) (h - cand_h t + 1 - 0) ltac:(lia)).
  pose proof (Z.mod_pos_bound (draw_w t) (w - cand_w t + 1 - 0) ltac:(lia)).
  simpl. lia.
Qed.

Lemma rrc_accepted_crop_inside_witness :
  exists oh ow th tw,
    Ok (1, 3, 2, 3) = Ok (oh, ow, th, tw) /\ 0 < th /\ 0 < tw /\
    crop_inside 4 6 (oh, ow, th, tw).
Proof.
  apply (rrc_accepted_crop_inside 4 6
           [ {| cand_w := 7; cand_h := 2; draw_h := 0; draw_w := 0 |};
             {| cand_w := 3; cand_h := 2; draw_h := 1; draw_w := 3 |} ]).
  reflexivity.
Defined.

End CropFacts.

(** The crop transform with [pad_if_needed], given what mmcv does to
    shapes: impad adds the borders it is asked for, and imcrop of a box
    inside the image returns a patch of the size of the box. *)
Section PadIfNeeded.
Import Processing Pipelines.
Local Open Scope Z_scope.
Context {image : Type}.
Variable shape_of : image -> list Z.
Variable impad : image -> list Z -> list Z -> string -> res image.
Variable imcrop : image -> list Z -> res image.
Hypothesis impad_shape :
  forall img h w rest l t r b pad_val mode,
    shape_of img = h :: w :: rest ->
    0 <= l -> 0 <= t -> 0 <= r -> 0 <= b ->
    exists img', impad img [l; t; r; b] pad_val mode = Ok img' /\
                 shape_of img' = (h + t + b) :: (w + l + r) :: rest.
Hypothesis imcrop_shape :
  forall img h w rest x1 y1 x2 y2,
    shape_of img = h :: w :: rest ->
    0 <= x1 <= x2 -> x2 < w -> 0 <= y1 <= y2 -> y2 < h ->
    exists img', imcrop img [x1; y1; x2; y2] = Ok img' /\
                 shape_of img' = (y2 - y1 + 1) :: (x2 - x1 + 1) :: rest.

Lemma half_pad_nonneg c s : 0 <= half_pad c s.
Proof. unfold half_pad. apply Z.div_pos; lia. Qed.

(** With [pad_if_needed] set and no fixed padding, RandomCrop.transform
    returns for every image of two dimensions or more, however small, and
    the image it stores has exactly the height and width of [crop_size]:
    the padding of lines 126-134 makes the image large enough, so the
    clamping of lines 102-104 is never reached. *)
Theorem RandomCrop_transform_pad_if_needed :
  forall cs pv pm self (results : gmap string (pyval image)) img h w rest
         d1 d2,
    RandomCrop_init cs None true pv pm = Ok self ->
    results !! "img"%string = Some (VImage img) ->
    shape_of img = h :: w :: rest ->
    exists results' img',
      RandomCrop_transform shape_of impad imcrop self results d1 d2
      = Ok results' /\
      results' !! "img"%string = Some (VImage img') /\
      shape_of img' = (crop_size self).1 :: (crop_size self).2 :: rest /\
      results' !! "img_shape"%string = Some (VShape (shape_of img')).
Proof.
  intros cs pv pm self results img h w rest d1 d2 Hinit Himg Hshape.
  apply RandomCrop_init_Ok in Hinit
    as (Hch & Hcw & _ & _ & Hpad & Hpin & Hpv & Hpm).
  unfold RandomCrop_transform, getitem. rewrite Himg, Hpad, Hpin. simpl.
  rewrite Hshape. simpl.
  destruct (crop_size self) as [ch cw] eqn:Hcs. simpl in *.
  destruct (impad_shape img h w rest (half_pad cw w) (half_pad ch h)
              (half_pad cw w) (half_pad ch h) (pad_val self)
              (padding_mode self) Hshape)
    as (img1 & -> & Hshape1); try apply half_pad_nonneg.
  simpl. rewrite Hshape1.
  replace (h + half_pad ch h + half_pad ch h) with (h + 2 * half_pad ch h)
    in * by lia.
  replace (w + half_pad cw w + half_pad cw w) with (w + 2 * half_pad cw w)
    in * by lia.
  destruct (rand_crop_params_after_padding ch cw h w rest d1 d2)
    as (oh & ow & -> & Hin).
  simpl in Hin. simpl.
  destruct (imcrop_shape img1 _ _ rest ow oh (ow + cw - 1) (oh + ch - 1)
              Hshape1) as (img2 & -> & Hshape2); try lia.
  simpl. exists (<["img_shape"%string := VShape (shape_of img2)]>
                   (<["img"%string := VImage img2]> results)), img2.
  split; [done|]. split.
  - rewrite lookup_insert_ne by done. apply lookup_insert_eq.
  - split; [|apply lookup_insert_eq].
    rewrite Hshape2. f_equal; [lia|]. f_equal. lia.
Qed.

End PadIfNeeded.

Section PadIfNeededWitness.
Import Processing Pipelines Samples.
Local Open Scope Z_scope.

Lemma shape_impad_spec img h w rest l t r b (pad_val : list Z) mode :
  img = h :: w :: rest ->
  0 <= l -> 0 <= t -> 0 <= r -> 0 <= b ->
  exists img', shape_impad img [l; t; r; b] pad_val mode = Ok img' /\
               img' = (h + t + b) :: (w + l + r) :: rest.
Proof. intros -> _ _ _ _. eexists. split; reflexivity. Qed.

Lemma shape_imcrop_spec img h w rest x1 y1 x2 y2 :
  img = h :: w :: rest ->
  0 <= x1 <= x2 -> x2 < w -> 0 <= y1 <= y2 -> y2 < h ->
  exists img', shape_imcrop img [x1; y1; x2; y2] = Ok img' /\
               img' = (y2 - y1 + 1) :: (x2 - x1 + 1) :: rest.
Proof. intros -> _ _ _ _. eexists. split; reflexivity. Qed.

Lemma RandomCrop_transform_pad_if_needed_witness :
  exists results' img',
    RandomCrop_transform (fun s : list Z => s) shape_impad shape_imcrop
      sample_crop (<["img"%string := VImage [2; 3; 3]]> ∅) 7 9
    = Ok results' /\
    results' !! "img"%string = Some (VImage img') /\
    img' = [4; 4; 3] /\
    results' !! "img_shape"%string = Some (VShape img').
Proof.
  apply (RandomCrop_transform_pad_if_needed (fun s => s) shape_impad
           shape_imcrop shape_impad_spec shape_imcrop_spec (IntArg 4) [0]
           "constant" sample_crop (<["img"%string := VImage [2; 3; 3]]> ∅)
           [2; 3; 3] 2 3 [3] 7 9); reflexivity.
Defined.

End PadIfNeededWitness.

(** ** crl_loss.py: construction *)

Section CrlFacts.
Import Names CrlLoss Samples.
Local Open Scope string_scope.

(** With [torch] imported, CRLLoss.__init__ builds an object only when
    neither [use_sigmoid] nor [use_soft] is set: the two other criteria are
    names the module never binds. *)
Theorem CRLLoss_init_only_cross_entropy :
  forall (float : Type) mc kv us uf red (lw : float) cw pw,
    CRLLoss_init (with_torch crl_loss_globals) mc kv us uf red lw cw pw
    = if us && uf then Raise AssertionError
      else if us then Raise (NameError "binary_cross_entropy")
      else if uf then Raise (NameError "soft_cross_entropy")
      else Ok {| use_sigmoid := false; use_soft := false; reduction := red;
                 loss_weight := lw; class_weight := cw; pos_weight := pw;
                 cls_criterion := "cross_entropy"; k := kv;
                 min_classes := mc |}.
Proof. intros float mc kv us uf red lw cw pw. by destruct us, uf. Qed.

End CrlFacts.

(** ** The loss methods of the heads *)

Section HeadLossFacts.
Import Names Heads HeadLoss.
Local Open Scope string_scope.
Context {tensor sample feats : Type}.
Variable has_gt_score : sample -> bool.
Variable stack_gt_score : list sample -> res tensor.
Variable cat_gt_label : list sample -> res tensor.
Variable ndim : tensor -> nat.
Variable accuracy_calculate : tensor -> tensor -> list Z -> res (list tensor).
Variable update_accuracy :
  list (string * tensor) -> list Z -> list tensor -> list (string * tensor).
Variable cosen_loss_module : tensor -> tensor -> list string -> res tensor.
Variable head_call : feats -> res tensor.
Variable dos_loss_module :
  feats -> tensor -> tensor -> list Z -> list Z -> res tensor.

Lemma accuracy_branch_unbound G cal_acc topk cls_score target losses :
  load_global G "Accuracy" = Raise (NameError "Accuracy") ->
  accuracy_branch ndim accuracy_calculate update_accuracy G cal_acc topk
    cls_score target losses
  = if cal_acc then
      if (ndim target =? 1)%nat then Raise (NameError "Accuracy")
      else Raise AssertionError
    else Ok losses.
Proof.
  intros HG. unfold accuracy_branch. destruct cal_acc; [|done].
  destruct (ndim target =? 1)%nat; simpl; [by rewrite HG | done].
Qed.

(** CoSenLinearClsHead._get_loss can only return with [cal_acc] off, and
    then returns the dict with the single key 'loss' together with the
    scores it was given.  With [cal_acc] on, once the loss module has
    returned, the method raises: NameError for [Accuracy], which
    cosen_linear_head.py never imports, when the target has one dimension,
    and the AssertionError of line 50 otherwise. *)
Theorem CoSenLinearClsHead_get_loss_accuracy_unbound :
  forall cal_acc topk cls_score data_samples kwargs,
    let get_loss :=
      CoSenLinearClsHead_get_loss has_gt_score stack_gt_score cat_gt_label
        ndim accuracy_calculate update_accuracy cosen_loss_module
        (module_globals cosen_linear_head_module) cal_acc topk cls_score
        data_samples kwargs in
    (forall r, get_loss = Ok r ->
       cal_acc = false /\ r.2 = cls_score /\
       exists loss, r.1 = [("loss", loss)]) /\
    (forall first target loss,
       data_samples !! 0 = Some first ->
       (if has_gt_score first then stack_gt_score data_samples
        else cat_gt_label data_samples) = Ok target ->
       cosen_loss_module cls_score target kwargs = Ok loss ->
       get_loss =
       if cal_acc then
         if (ndim target =? 1)%nat then Raise (NameError "Accuracy")
         else Raise AssertionError
       else Ok ([("loss", loss)], cls_score)).
Proof.
  intros cal_acc topk cls_score data_samples kwargs get_loss.
  subst get_loss. unfold CoSenLinearClsHead_get_loss. split.
  - intros r H. bind_inv H. bind_inv H. bind_inv H. bind_inv H. bind_inv H.
    bind_inv H. injection H as <-. simpl.
    rewrite accuracy_branch_unbound in Ha4 by reflexivity.
    destruct cal_acc.
    + destruct (ndim a1 =? 1)%nat; discriminate.
    + injection Ha4 as <-. eauto.
  - intros first target loss Hfirst Htarget Hloss.
    unfold index. rewrite Hfirst. simpl. rewrite Htarget. simpl.
    rewrite Hloss. simpl.
    rewrite accuracy_branch_unbound by reflexivity.
    destruct cal_acc; [|done]. by destruct (ndim target =? 1)%nat.
Qed.

(** DOSHead.loss behaves the same way: dos_head.py does not import
    [Accuracy] either, so with [cal_acc] on the method raises once the
    loss module has returned, and with [cal_acc] off it returns the dict
    with the single key 'loss'. *)
Theorem DOSHead_loss_accuracy_unbound :
  forall cal_acc topk deep_feats data_samples n w,
    let loss_of :=
      DOSHead_loss cat_gt_label ndim accuracy_calculate update_accuracy
        head_call dos_loss_module (module_globals dos_head_module) cal_acc
        topk deep_feats data_samples n w in
    (forall losses, loss_of = Ok losses ->
       cal_acc = false /\ exists loss, losses = [("loss", loss)]) /\
    (forall cls_score target loss,
       head_call deep_feats = Ok cls_score ->
       cat_gt_label data_samples = Ok target ->
       dos_loss_module deep_feats cls_score target n w = Ok loss ->
       loss_of =
       if cal_acc then
         if (ndim target =? 1)%nat then Raise (NameError "Accuracy")
         else Raise AssertionError
       else Ok [("loss", loss)]).
Proof.
  intros cal_acc topk deep_feats data_samples n w loss_of.
  subst loss_of. unfold DOSHead_loss. split.
  - intros losses H. bind_inv H. bind_inv H. bind_inv H. bind_inv H.
    bind_inv H. rewrite accuracy_branch_unbound in H by reflexivity.
    destruct cal_acc.
    + destruct (ndim a1 =? 1)%nat; discriminate.
    + injection H as <-. eauto.
  - intros cls_score target loss Hcall Htarget Hloss.
    rewrite Hcall. simpl. rewrite Htarget. simpl. rewrite Hloss. simpl.
    by rewrite accuracy_branch_unbound by reflexivity.
Qed.

End HeadLossFacts.

(** ** processing.py: Albu.mapper *)

Section AlbuFacts.
Import Albu.
Local Open Scope string_scope.

Lemma get_setitem {V} (d : list (string * V)) k v k' :
  get (setitem d k v) k' = if decide (k = k') then Some v else get d k'.
Proof.
  induction d as [|[k0 v0] d IH]; simpl.
  - destruct (String.eqb_spec k k'), (decide (k = k')); congruence.
  - destruct (String.eqb_spec k0 k) as [->|Hne]; simpl.
    + destruct (String.eqb_spec k k'), (decide (k = k')); congruence.
    + rewrite IH.
      destruct (String.eqb_spec k0 k'), (decide (k = k')); congruence.
Qed.

Lemma setitem_fresh {V} (d : list (string * V)) k v :
  k ∉ d.*1 -> setitem d k v = (d ++ [(k, v)])%list.
Proof.
  induction d as [|[k0 v0] d IH]; simpl; [done|].
  rewrite not_elem_of_cons. intros [Hne Hnin].
  destruct (String.eqb_spec k0 k); [congruence|]. by rewrite IH.
Qed.

Lemma get_None {V} (d : list (string * V)) k :
  get d k = None <-> k ∉ d.*1.
Proof.
  induction d as [|[k0 v0] d IH]; simpl.
  - split; [intros _ H; inversion H | done].
  - rewrite not_elem_of_cons.
    destruct (String.eqb_spec k0 k); [|rewrite IH]; split;
      intros; try tauto; try discriminate; intuition congruence.
Qed.

Lemma get_Some_elem {V} (d : list (string * V)) k v :
  get d k = Some v -> (k, v) ∈ d.
Proof.
  induction d as [|[k0 v0] d IH]; simpl; [done|].
  destruct (String.eqb_spec k0 k) as [->|].
  - intros [= ->]. left.
  - intros H. right. auto.
Qed.

Lemma elem_get_Some {V} (d : list (string * V)) k v :
  NoDup d.*1 -> (k, v) ∈ d -> get d k = Some v.
Proof.
  induction d as [|[k0 v0] d IH]; simpl; [intros _ H; inversion H|].
  rewrite NoDup_cons, elem_of_cons. intros [Hnin Hnd] [[= -> ->]|Hin].
  - by rewrite String.eqb_refl.
  - destruct (String.eqb_spec k0 k) as [->|]; [|auto].
    exfalso. apply Hnin. apply list_elem_of_fmap. by exists (k, v).
Qed.

(** A loop of [setitem] that never meets a key twice appends its items. *)
Lemma foldl_setitem_fresh {A V} (g : A -> string * V)
    (step : list (string * V) -> A -> list (string * V)) l :
  (forall u x, step u x = setitem u (g x).1 (g x).2) ->
  forall acc,
    NoDup (acc.*1 ++ (g <$> l).*1)%list ->
    foldl step acc l = (acc ++ (g <$> l))%list.
Proof.
  intros Hstep. induction l as [|x l IH]; intros acc Hnd; simpl.
  - by rewrite app_nil_r.
  - rewrite Hstep. simpl in Hnd.
    assert ((g x).1 ∉ acc.*1) as Hfresh.
    { apply NoDup_app in Hnd as (_ & Hdisj & _). intros Hin.
      apply (Hdisj _ Hin). left. }
    rewrite setitem_fresh by done. rewrite IH.
    + rewrite <- app_assoc. by destruct (g x).
    + rewrite fmap_app. simpl. rewrite <- app_assoc. done.
Qed.

(** The value under a key of the dict that Albu.mapper returns is the value
    of the last item of [d] that is renamed to this key: when two keys of
    [d] are renamed to the same key, one entry remains and the later value
    wins. *)
Theorem mapper_get :
  forall (V : Type) (d : list (string * V)) keymap k',
    get (mapper d keymap) k'
    = snd <$> last (filter (fun item => new_key keymap item.1 = k') d).
Proof.
  intros V d keymap k'. unfold mapper.
  assert (H : forall acc,
    get (foldl (fun updated_dict '(k, v) =>
                  setitem updated_dict (new_key keymap k) v) acc d) k'
    = match last (filter (fun item => new_key keymap item.1 = k') d) with
      | Some item => Some item.2
      | None => get acc k'
      end).
  { induction d as [|[k v] d IH]; intros acc; simpl; [done|].
    rewrite IH, filter_cons. simpl.
    destruct (decide (new_key keymap k = k')) as [Heq|Hne].
    - rewrite last_cons.
      destruct (last (filter _ d)); [done|].
      rewrite get_setitem. by rewrite decide_True.
    - destruct (last (filter _ d)); [done|].
      rewrite get_setitem. by rewrite decide_False. }
  rewrite H. by destruct (last _).
Qed.

Lemma snd_unique {A B} (l : list (A * B)) a b v :
  NoDup l.*2 -> (a, v) ∈ l -> (b, v) ∈ l -> a = b.
Proof.
  induction l as [|[a0 v0] l IH]; simpl; [intros _ H; inversion H|].
  rewrite NoDup_cons, !elem_of_cons.
  intros [Hnin Hnd] [Ha|Ha] [Hb|Hb].
  - congruence.
  - injection Ha as -> ->. exfalso.
    apply Hnin, list_elem_of_fmap. by exists (b, v0).
  - injection Hb as -> ->. exfalso.
    apply Hnin, list_elem_of_fmap. by exists (a, v0).
  - auto.
Qed.

Lemma keymap_back_swap keymap :
  NoDup keymap.*2 ->
  keymap_back keymap = (fun item => (item.2, item.1)) <$> keymap.
Proof.
  intros Hnd. unfold keymap_back.
  rewrite (foldl_setitem_fresh (fun item => (item.2, item.1))); [done | |].
  - by intros u [k v].
  - simpl. rewrite <- list_fmap_compose.
    by rewrite (Forall_fmap_ext_1 _ snd keymap) by by apply Forall_forall.
Qed.

Lemma mapper_fresh {V} (d : list (string * V)) keymap :
  NoDup (new_key keymap <$> d.*1) ->
  mapper d keymap = (fun item => (new_key keymap item.1, item.2)) <$> d.
Proof.
  intros Hnd. unfold mapper.
  rewrite (foldl_setitem_fresh (fun item => (new_key keymap item.1, item.2)));
    [done | |].
  - by intros u [k v].
  - simpl. by rewrite <- !list_fmap_compose in *.
Qed.

(** Renaming forth and back, as Albu.__call__ does, gives the dict back
    with its items in their order, when the keymap renames no two keys to
    the same key and no key that [d] keeps is the new name of another
    key. *)
Theorem mapper_round_trip :
  forall (V : Type) (d : list (string * V)) keymap,
    NoDup d.*1 -> NoDup keymap.*1 -> NoDup keymap.*2 ->
    (forall k, k ∈ d.*1 -> k ∉ keymap.*1 -> k ∉ keymap.*2) ->
    mapper (mapper d keymap) (keymap_back keymap) = d.
Proof.
  intros V d keymap Hd Hk1 Hk2 Hkeep.
  set (back := keymap_back keymap).
  assert (Hinv : forall k, k ∈ d.*1 -> new_key back (new_key keymap k) = k).
  { intros k Hk. unfold new_key, back. rewrite keymap_back_swap by done.
    destruct (get keymap k) as [v|] eqn:E; simpl.
    - apply get_Some_elem in E.
      rewrite (elem_get_Some _ v k); [done | |].
      + rewrite <- list_fmap_compose.
        by rewrite (Forall_fmap_ext_1 _ snd keymap) by by apply Forall_forall.
      + apply list_elem_of_fmap. by exists (k, v).
    - apply get_None in E. specialize (Hkeep k Hk E).
      assert (get ((fun item => (item.2, item.1)) <$> keymap) k = None) as ->;
        [|done].
      apply get_None. rewrite <- list_fmap_compose.
      by rewrite (Forall_fmap_ext_1 _ snd keymap) by by apply Forall_forall. }
  assert (Hinj : NoDup (new_key keymap <$> d.*1)).
  { apply NoDup_fmap_2_strong; [|done]. intros x y Hx Hy Heq.
    rewrite <- (Hinv x Hx), <- (Hinv y Hy). by rewrite Heq. }
  rewrite (mapper_fresh d) by done.
  rewrite mapper_fresh.
  - rewrite <- list_fmap_compose.
    rewrite <- (list_fmap_id d) at 2. apply Forall_fmap_ext_1.
    apply Forall_forall. intros [k v] Hin. simpl. f_equal.
    apply Hinv. apply list_elem_of_fmap. by exists (k, v).
  - rewrite <- !list_fmap_compose.
    rewrite (Forall_fmap_ext_1 _ fst); [done|].
    apply Forall_forall. intros [k v] Hin. simpl.
    apply Hinv. apply list_elem_of_fmap. by exists (k, v).
Qed.

Lemma mapper_round_trip_witness :
  mapper (mapper [("img", 1); ("gt_label", 2)] (keymap_to_albu None))
         (keymap_back (keymap_to_albu None))
  = [("img", 1); ("gt_label", 2)].
Proof.
  apply (mapper_round_trip nat [("img", 1); ("gt_label", 2)]
           (keymap_to_albu None)).
  - apply (bool_decide_unpack _). by vm_compute.
  - apply (bool_decide_unpack _). by vm_compute.
  - apply (bool_decide_unpack _). by vm_compute.
  - simpl. intros k Hk _ Hin. apply list_elem_of_singleton in Hin. subst k.
    revert Hk. apply (bool_decide_unpack _). by vm_compute.
Defined.

End AlbuFacts.

(** ** processing.py: the other transforms *)

Section PatchFacts.
Import Processing Pipelines.
Local Open Scope Z_scope.

(** RandomErasing.random_patch never raises, and the patch it returns lies
    inside the image; a patch shorter than the image ends above the last
    row, and one narrower than the image ends before the last column
    (the randint bounds of lines 479-480 exclude the offsets [img_h - h] and
    [img_w - w]). *)
Theorem random_patch_inside :
  forall img_h img_w raw_h raw_w d1 d2,
    exists top left h w,
      random_patch img_h img_w raw_h raw_w d1 d2 = Ok (top, left, h, w) /\
      h = Z.min raw_h img_h /\ w = Z.min raw_w img_w /\
      0 <= top /\ top + h <= img_h /\ 0 <= left /\ left + w <= img_w /\
      (h < img_h -> top + h < img_h) /\ (w < img_w -> left + w < img_w).
Proof.
  intros img_h img_w raw_h raw_w d1 d2. unfold random_patch.
  set (h := Z.min raw_h img_h). set (w := Z.min raw_w img_w).
  assert (Htop : exists top,
    (if h <? img_h then randint 0 (img_h - h) d1 else Ok 0) = Ok top /\
    0 <= top /\ top + h <= img_h /\ (h < img_h -> top + h < img_h)).
  { destruct (Z.ltb_spec h img_h) as [Hlt|Hge].
    - unfold randint. replace (0 <? img_h - h) with true by lia.
      eexists. split; [reflexivity|].
      pose proof (Z.mod_pos_bound d1 (img_h - h - 0) ltac:(lia)). lia.
    - exists 0. split; [reflexivity|]. subst h. lia. }
  assert (Hleft : exists left,
    (if w <? img_w then randint 0 (img_w - w) d2 else Ok 0) = Ok left /\
    0 <= left /\ left + w <= img_w /\ (w < img_w -> left + w < img_w)).
  { destruct (Z.ltb_spec w img_w) as [Hlt|Hge].
    - unfold randint. replace (0 <? img_w - w) with true by lia.
      eexists. split; [reflexivity|].
      pose proof (Z.mod_pos_bound d2 (img_w - w - 0) ltac:(lia)). lia.
    - exists 0. split; [reflexivity|]. subst w. lia. }
  destruct Htop as (top & -> & Ht), Hleft as (left & -> & Hl).
  exists top, left, h, w. simpl. tauto.
Qed.

End PatchFacts.

Lemma bind_Done {A B} (m : Pipelines.outcome A) (f : A -> Pipelines.outcome B)
    (b : B) :
  m ≫= f = Pipelines.Done b ->
  exists a, m = Pipelines.Done a /\ f a = Pipelines.Done b.
Proof. destruct m as [a|e]; simpl; [eauto | discriminate]. Qed.

Lemma lift_Done {A} (m : res A) (a : A) :
  Pipelines.lift m = Pipelines.Done a <-> m = Ok a.
Proof. destruct m; simpl; split; congruence. Qed.

(** Splits a hypothesis [m ≫= f = Done b] into its two steps. *)
Tactic Notation "bind_done" hyp(H) "as" ident(a) ident(Ha) :=
  apply bind_Done in H; destruct H as (a & Ha & H).

Section DictFacts.
Import Pipelines.
Local Open Scope string_scope.
Context {image float : Type}.
Local Abbreviation value := (value image float).
Local Abbreviation dict := (gmap string value).

Lemma lookup_key_Done (results : dict) key v :
  lookup_key results key = Done v <-> results !! key = Some v.
Proof. unfold lookup_key. destruct (results !! key); split; congruence. Qed.

Lemma as_array_Done (v : value) img : as_array v = Done img <-> v = Array img.
Proof. destruct v; simpl; split; congruence. Qed.

(** *** Loops that store one image per field *)

(** A loop over distinct keys whose body replaces the image under its key
    by [f] of it, and besides only writes keys that [touched] holds of. *)
Lemma foreach_store (f : value -> outcome image) (touched : string -> Prop)
    (body : string -> dict -> outcome dict) :
  (forall key (r r' : dict), ~ touched key -> body key r = Done r' ->
     exists v img, r !! key = Some v /\ f v = Done img /\
       r' !! key = Some (Array img) /\
       forall k, k <> key -> ~ touched k -> r' !! k = r !! k) ->
  forall keys (results results' : dict),
    foreach keys body results = Done results' ->
    NoDup keys -> Forall (fun k => ~ touched k) keys ->
    (forall k, k ∉ keys -> ~ touched k -> results' !! k = results !! k) /\
    (forall k, k ∈ keys -> exists v img,
       results !! k = Some v /\ f v = Done img /\
       results' !! k = Some (Array img)).
Proof.
  intros Hbody. induction keys as [|key keys IH];
    intros results results' H Hnd Hnt; simpl in H.
  { injection H as <-. split; [done|]. intros k Hk. inversion Hk. }
  bind_done H as r1 Hr.
  apply NoDup_cons in Hnd as [Hnin Hnd].
  apply Forall_cons in Hnt as [Hkey Hnt].
  destruct (Hbody _ _ _ Hkey Hr) as (v & img & Hv & Hf & Hr1 & Hframe).
  destruct (IH _ _ H Hnd Hnt) as [IH1 IH2]. split.
  - intros k Hk Hnk. apply not_elem_of_cons in Hk as [Hne Hk].
    rewrite IH1 by done. by apply Hframe.
  - intros k Hk. apply elem_of_cons in Hk as [->|Hk].
    + exists v, img. rewrite IH1 by done. done.
    + destruct (IH2 k Hk) as (v' & img' & Hv' & Hf' & Hres).
      exists v', img'. rewrite <- Hframe; [done | |].
      * intros ->. done.
      * rewrite Forall_forall in Hnt. by apply Hnt.
Qed.

End DictFacts.

Section GrayscaleFacts.
Import Pipelines.
Local Open Scope string_scope.
Context {image float : Type}.
Local Abbreviation value := (value image float).
Local Abbreviation dict := (gmap string value).
Variable shape_of : image -> list Z.
Variable gray_stack : image -> Z -> outcome image.

(** *** RandomGrayscale *)

Lemma RandomGrayscale_loop_spec below keys :
  forall i0 (results results' : dict),
    RandomGrayscale_loop shape_of gray_stack below i0 keys results
    = Done results' ->
    (results' = results /\
     forall j key, keys !! j = Some key ->
       not_converted shape_of below results (i0 + j) key) \/
    (exists j key img n gray,
       keys !! j = Some key /\
       (forall j' key', j' < j -> keys !! j' = Some key' ->
          not_converted shape_of below results (i0 + j') key') /\
       results !! key = Some (Array img) /\ shape_of img !! 2 = Some n /\
       below (i0 + j) = true /\ (1 < n)%Z /\ gray_stack img n = Done gray /\
       results' = <[key := Array gray]> results).
Proof.
  induction keys as [|key keys IH]; intros i0 results results' H; simpl in H.
  { injection H as <-. left. split; [done|]. intros j key Hj. done. }
  bind_done H as v Hv. apply lookup_key_Done in Hv.
  bind_done H as img Himg. apply as_array_Done in Himg. subst v.
  bind_done H as n Hn. apply lift_Done, index_Ok in Hn.
  destruct (below i0 && (1 <? n)%Z) eqn:E.
  - bind_done H as gray Hgray. injection H as <-.
    apply andb_true_iff in E as [Eb En]. right.
    exists 0, key, img, n, gray. rewrite Nat.add_0_r.
    repeat split; try done; [intros; lia | lia].
  - rewrite insert_id in H by done.
    assert (Hhere : not_converted shape_of below results (i0 + 0) key).
    { rewrite Nat.add_0_r. by exists img, n. }
    destruct (IH _ _ _ H)
      as [[-> Hall] | (j & k & img' & n' & gray & Hj & Hbefore & Hrest)].
    + left. split; [done|]. intros [|j] k Hj; simpl in Hj.
      * by injection Hj as <-.
      * replace (i0 + S j) with (S i0 + j) by lia. by apply Hall.
    + right. exists (S j), k, img', n', gray.
      replace (i0 + S j) with (S i0 + j) by lia.
      split; [done|]. split; [|done].
      intros [|j'] k' Hlt Hk'; simpl in Hk'.
      * by injection Hk' as <-.
      * replace (i0 + S j') with (S i0 + j') by lia.
        apply Hbefore; [lia | done].
Qed.

(** RandomGrayscale.__call__ converts at most one image field: the first
    one, in the order of 'img_fields', whose draw falls below [gray_prob]
    and which has more than one channel.  The [return] of line 354 ends the
    loop there, so a later field stays in colour whatever its draw, and
    every other entry of the dict is as it was. *)
Theorem RandomGrayscale_converts_one_field :
  forall below (results results' : dict),
    RandomGrayscale_call shape_of gray_stack below results = Done results' ->
    exists keys,
      img_fields results = Done keys /\
      ((results' = results /\
        forall j key, keys !! j = Some key ->
          not_converted shape_of below results j key) \/
       (exists j key img n gray,
          keys !! j = Some key /\
          (forall j' key', j' < j -> keys !! j' = Some key' ->
             not_converted shape_of below results j' key') /\
          results !! key = Some (Array img) /\ shape_of img !! 2 = Some n /\
          below j = true /\ (1 < n)%Z /\ gray_stack img n = Done gray /\
          results' = <[key := Array gray]> results)).
Proof.
  intros below results results' H. unfold RandomGrayscale_call in H.
  bind_done H as keys Hkeys. exists keys. split; [done|].
  exact (RandomGrayscale_loop_spec below keys 0 results results' H).
Qed.

End GrayscaleFacts.

Section PadFacts.
Import Pipelines.
Local Open Scope string_scope.
Context {image float : Type}.
Local Abbreviation value := (value image float).
Local Abbreviation dict := (gmap string value).
Variable shape_of : image -> list Z.
Variable impad_shape :
  value -> option (Z * Z) -> list Z -> string -> outcome image.

(** *** Pad *)

Lemma Pad_init_Ok size sq pv pm self :
  Pad_init size sq pv pm = Ok self ->
  self = {| Pad.size := size; Pad.pad_to_square := sq; Pad.pad_val := pv;
            Pad.padding_mode := pm |} /\
  (sq = false <-> is_Some size).
Proof.
  unfold Pad_init. intros H. bind_inv H. injection H as <-.
  split; [done|]. unfold py_assert in Ha.
  destruct size as [s|], sq; simpl in Ha; try discriminate;
    split; try done; intros [? ?]; done.
Qed.

Lemma target_size_Some size sq pv pm self (v : value) ts :
  Pad_init size sq pv pm = Ok self ->
  target_size shape_of self v = Done ts ->
  exists th tw, ts = Some (th, tw) /\
    (sq = true -> exists img h w,
       v = Array img /\ shape_of img !! 0 = Some h /\
       shape_of img !! 1 = Some w /\ th = Z.max h w /\ tw = Z.max h w).
Proof.
  intros Hinit H. apply Pad_init_Ok in Hinit as [-> Hsq].
  unfold target_size in H. simpl in H. destruct sq.
  - bind_done H as arr Harr. bind_done H as h Hh. bind_done H as w Hw.
    injection H as <-. apply as_array_Done in Harr.
    apply lift_Done, index_Ok in Hh. apply lift_Done, index_Ok in Hw.
    do 2 eexists. split; [done|]. intros _. by exists arr, h, w.
  - injection H as <-. destruct Hsq as [Hsq _].
    destruct (Hsq eq_refl) as [[th tw] ->]. exists th, tw. by split.
Qed.

Lemma last_foreach_shape (self : Pad.t) keys :
  forall (results results' : dict),
    foreach keys (fun key results =>
      img ← lookup_key results key;
      size ← target_size shape_of self img;
      img ← impad_shape img size (Pad.pad_val self) (Pad.padding_mode self);
      Done (<["img_shape" := Ints (shape_of img)]>
              (<[key := Array img]> results))) results = Done results' ->
    "img_shape" ∉ keys ->
    match last keys with
    | Some key => exists img,
        results' !! key = Some (Array img) /\
        results' !! "img_shape" = Some (Ints (shape_of img))
    | None => results' = results
    end.
Proof.
  induction keys as [|key keys IH]; intros results results' H Hnin;
    simpl in H.
  { by injection H as <-. }
  bind_done H as r1 Hr. apply not_elem_of_cons in Hnin as [Hne Hnin].
  specialize (IH _ _ H Hnin). rewrite last_cons.
  destruct (last keys) as [k|]; [done|]. subst results'.
  bind_done Hr as v Hv. bind_done Hr as ts Hts. bind_done Hr as img Himg.
  injection Hr as <-. exists img. split.
  - rewrite lookup_insert_ne by done. apply lookup_insert_eq.
  - apply lookup_insert_eq.
Qed.

(** Pad.__call__ on an object that the constructor has built, for distinct
    image fields none of which is 'img_shape': every field is replaced by
    its image padded to a size that is always given (with [pad_to_square],
    the square of side [max(h, w)]), 'img_shape' ends as the shape of the
    last field's padded image, and no other key changes. *)
Theorem Pad_call_spec :
  forall size sq pv pm self (results results' : dict) keys,
    Pad_init size sq pv pm = Ok self ->
    img_fields results = Done keys ->
    NoDup keys -> "img_shape" ∉ keys ->
    Pad_call shape_of impad_shape self results = Done results' ->
    (forall k, k ∉ keys -> k <> "img_shape" ->
       results' !! k = results !! k) /\
    (forall k, k ∈ keys -> exists v th tw img,
       results !! k = Some v /\
       target_size shape_of self v = Done (Some (th, tw)) /\
       (sq = true -> exists arr h w,
          v = Array arr /\ shape_of arr !! 0 = Some h /\
          shape_of arr !! 1 = Some w /\ th = Z.max h w /\ tw = Z.max h w) /\
       impad_shape v (Some (th, tw)) pv pm = Done img /\
       results' !! k = Some (Array img)) /\
    match last keys with
    | Some key => exists img,
        results' !! key = Some (Array img) /\
        results' !! "img_shape" = Some (Ints (shape_of img))
    | None => results' = results
    end.
Proof.
  intros size sq pv pm self results results' keys Hinit Hkeys Hnd Hnin H.
  unfold Pad_call in H. rewrite Hkeys in H. simpl in H.
  pose proof (last_foreach_shape self keys _ _ H Hnin) as Hlast.
  pose proof (Pad_init_Ok _ _ _ _ _ Hinit) as [Hself _].
  eapply (foreach_store
            (fun v => size ← target_size shape_of self v;
                      impad_shape v size (Pad.pad_val self)
                                  (Pad.padding_mode self))
            (fun k => k = "img_shape")) in H; [| |done|].
  - destruct H as [H1 H2]. split; [exact H1|]. split; [|exact Hlast].
    intros k Hk. destruct (H2 k Hk) as (v & img & Hv & Hf & Hres).
    bind_done Hf as ts Hts.
    destruct (target_size_Some _ _ _ _ _ _ _ Hinit Hts)
      as (th & tw & -> & Hsq).
    exists v, th, tw, img. rewrite Hself in Hf. simpl in Hf. done.
  - intros key r r' Hne Hb. bind_done Hb as v Hv. bind_done Hb as ts Hts.
    bind_done Hb as img Himg. injection Hb as <-.
    apply lookup_key_Done in Hv.
    exists v, img. split; [done|]. split; [by rewrite Hts|]. split.
    + rewrite lookup_insert_ne by done. apply lookup_insert_eq.
    + intros k Hk Hk'. by rewrite !lookup_insert_ne.
  - apply Forall_forall. intros k Hk ->. done.
Qed.

End PadFacts.

Section EdgeScaleFacts.
Import Pipelines.
Local Open Scope string_scope.
Variable wide_quotient : Z -> Z -> outcome Z.

(** *** ResizeEdge *)

Lemma int_truediv_small a b :
  (0 <= a < 2 ^ 53)%Z -> (0 < b < 2 ^ 53)%Z ->
  int_truediv wide_quotient a b = Done (a / b)%Z.
Proof.
  intros Ha Hb. unfold int_truediv.
  replace (b =? 0)%Z with false by lia.
  replace (Z.abs a <? 2 ^ 53)%Z with true by lia.
  replace (Z.abs b <? 2 ^ 53)%Z with true by lia. simpl.
  by rewrite Z.quot_div_nonneg by lia.
Qed.

Lemma ResizeEdge_init_Ok scale edge backend interpolation self :
  ResizeEdge_init scale edge backend interpolation = Ok self ->
  self = {| ResizeEdge.edge := edge; ResizeEdge.scale := scale;
            ResizeEdge.backend := backend;
            ResizeEdge.interpolation := interpolation |} /\
  edge ∈ ["short"; "long"; "width"; "height"].
Proof.
  unfold ResizeEdge_init, py_assert. case_bool_decide; [|discriminate].
  by intros [= <-].
Qed.

(** The size that ResizeEdge.transform requests, for an object that the
    constructor has built, an image of positive sides and a scale whose
    products with them stay below 2**53: one side is [scale] and the other
    the floor of the proportional length; with edge 'short' the shorter of
    width and height is [scale], with 'long' the longer one, with 'width'
    the width and with 'height' the height. *)
Theorem edge_scale_keeps_edge :
  forall scale edge backend interpolation self h w,
    ResizeEdge_init scale edge backend interpolation = Ok self ->
    (0 < h < 2 ^ 53)%Z -> (0 < w < 2 ^ 53)%Z -> (0 <= scale)%Z ->
    (scale * h < 2 ^ 53)%Z -> (scale * w < 2 ^ 53)%Z ->
    exists width height,
      edge_scale wide_quotient self h w = Done (width, height) /\
      (width = scale /\ height = (scale * h / w)%Z \/
       height = scale /\ width = (scale * w / h)%Z) /\
      edge ∈ ["short"; "long"; "width"; "height"] /\
      (edge = "short" -> Z.min width height = scale) /\
      (edge = "long" -> Z.max width height = scale) /\
      (edge = "width" -> width = scale) /\
      (edge = "height" -> height = scale).
Proof.
  intros s e backend interpolation self h w Hinit Hh Hw Hs Hsh Hsw.
  apply ResizeEdge_init_Ok in Hinit as [-> He]. unfold edge_scale. simpl.
  assert (Hlow_h : (w <= h -> s <= s * h / w)%Z).
  { intros. apply Z.div_le_lower_bound; nia. }
  assert (Hlow_w : (h <= w -> s <= s * w / h)%Z).
  { intros. apply Z.div_le_lower_bound; nia. }
  assert (Hup_h : (h <= w -> s * h / w <= s)%Z).
  { intros. apply Z.div_le_upper_bound; nia. }
  assert (Hup_w : (w <= h -> s * w / h <= s)%Z).
  { intros. apply Z.div_le_upper_bound; nia. }
  rewrite !int_truediv_small by nia. simpl.
  destruct (String.eqb_spec e "short") as [Hshort|Hshort];
    destruct (String.eqb_spec e "long") as [Hlong|Hlong];
    destruct (String.eqb_spec e "width") as [Hwidth|Hwidth];
    try congruence; simpl;
    destruct (Z.ltb_spec w h); destruct (Z.ltb_spec h w); simpl;
    try lia;
    do 2 eexists; (split; [reflexivity|]);
    (split; [tauto|]); (split; [done|]);
    repeat split; intros; try congruence; lia.
Qed.

End EdgeScaleFacts.

Section ResizeEdgeFacts.
Import Pipelines.
Local Open Scope string_scope.
Context {image float : Type}.
Local Abbreviation value := (value image float).
Local Abbreviation dict := (gmap string value).
Variable shape_of : image -> list Z.
Variable imresize_scale :
  value -> value -> string -> string -> outcome (image * float * float).
Variable wide_quotient : Z -> Z -> outcome Z.

Lemma resize_img_spec (self : ResizeEdge.t) (r r' : dict) :
  _resize_img shape_of imresize_scale self r = Done r' ->
  exists v sc img w_scale h_scale,
    r !! "img" = Some v /\ r !! "scale" = Some sc /\
    imresize_scale v sc (ResizeEdge.interpolation self)
                   (ResizeEdge.backend self) = Done (img, w_scale, h_scale) /\
    r' = <["scale_factor" := Floats [w_scale; h_scale]]>
           (<["scale" := Ints (reverse (take 2 (shape_of img)))]>
              (<["img_shape" := Ints (take 2 (shape_of img))]>
                 (<["img" := Array img]> r))).
Proof.
  unfold _resize_img. intros H. bind_done H as v Hv. bind_done H as sc Hsc.
  bind_done H as p Hp. destruct p as [[img w_scale] h_scale].
  injection H as <-. apply lookup_key_Done in Hv, Hsc.
  by exists v, sc, img, w_scale, h_scale.
Qed.

(** ResizeEdge.transform: without 'img' it raises the AssertionError of
    line 634, not a KeyError.  When it returns, 'img' holds what
    mmcv.imresize made of the image and the requested size, 'img_shape' its
    first two dimensions, 'scale' the size of that image as (width,
    height), which replaces the requested size written on line 648, and
    'scale_factor' the two factors; no other key changes. *)
Theorem ResizeEdge_transform_spec :
  forall (self : ResizeEdge.t) (results : dict),
    let transformed :=
      ResizeEdge_transform shape_of imresize_scale wide_quotient self
        results in
    (results !! "img" = None -> transformed = Throw (Py AssertionError)) /\
    (forall results', transformed = Done results' ->
       exists img0 h w width height img w_scale h_scale,
         results !! "img" = Some (Array img0) /\
         Processing.shape_hw (shape_of img0) = Ok (h, w) /\
         edge_scale wide_quotient self h w = Done (width, height) /\
         imresize_scale (Array img0) (Ints [width; height])
           (ResizeEdge.interpolation self) (ResizeEdge.backend self)
         = Done (img, w_scale, h_scale) /\
         results' !! "img" = Some (Array img) /\
         results' !! "img_shape" = Some (Ints (take 2 (shape_of img))) /\
         results' !! "scale"
         = Some (Ints (reverse (take 2 (shape_of img)))) /\
         results' !! "scale_factor" = Some (Floats [w_scale; h_scale]) /\
         forall k, k ∉ ["img"; "img_shape"; "scale"; "scale_factor"] ->
           results' !! k = results !! k).
Proof.
  intros self results transformed. subst transformed.
  unfold ResizeEdge_transform. split.
  - intros ->. reflexivity.
  - intros results' H. bind_done H as u Hu. bind_done H as v Hv.
    bind_done H as img0 Himg0. bind_done H as hw Hhw.
    destruct hw as [h w]. bind_done H as wh Hwh.
    destruct wh as [width height].
    apply lookup_key_Done in Hv. apply as_array_Done in Himg0. subst v.
    apply lift_Done in Hhw.
    apply resize_img_spec in H
      as (v & sc & img & w_scale & h_scale & Hv' & Hsc & Hres & ->).
    rewrite lookup_insert_ne in Hv' by done. rewrite Hv in Hv'.
    injection Hv' as <-. rewrite lookup_insert_eq in Hsc.
    injection Hsc as <-.
    exists img0, h, w, width, height, img, w_scale, h_scale.
    split; [done|]. split; [done|]. split; [done|]. split; [done|].
    split; [by rewrite !lookup_insert_ne, lookup_insert_eq by done|].
    split; [by rewrite !lookup_insert_ne, lookup_insert_eq by done|].
    split; [by rewrite !lookup_insert_ne, lookup_insert_eq by done|].
    split; [by rewrite lookup_insert_eq|].
    intros k Hk. rewrite !not_elem_of_cons in Hk.
    destruct Hk as (? & ? & ? & ? & _). by rewrite !lookup_insert_ne.
Qed.

(** With edge 'short', ResizeEdge.transform raises ZeroDivisionError on
    every image that has an empty side. *)
Theorem ResizeEdge_transform_empty_side :
  forall (self : ResizeEdge.t) (results : dict) img h w rest,
    ResizeEdge.edge self = "short" ->
    results !! "img" = Some (Array img) ->
    shape_of img = h :: w :: rest ->
    (0 <= h)%Z -> (0 <= w)%Z -> (h = 0 \/ w = 0)%Z ->
    ResizeEdge_transform shape_of imresize_scale wide_quotient self results
    = Throw ZeroDivisionError.
Proof.
  intros self results img h w rest He Himg Hshape Hh Hw Hz.
  unfold ResizeEdge_transform, lookup_key. rewrite Himg. simpl.
  rewrite Hshape. simpl. unfold edge_scale. rewrite He. simpl.
  destruct (Z.ltb_spec w h); simpl; unfold int_truediv.
  - by replace (w =? 0)%Z with true by lia.
  - by replace (h =? 0)%Z with true by lia.
Qed.

End ResizeEdgeFacts.

Section NormalizeFacts.
Import Pipelines.
Local Open Scope string_scope.
Context {image float : Type}.
Local Abbreviation value := (value image float).
Local Abbreviation dict := (gmap string value).
Variable imnormalize :
  value -> list float -> list float -> bool -> outcome image.
Variable adjust_lighting :
  value -> list float -> list (list float) -> float -> bool -> outcome image.

(** *** Normalize and Lighting *)

(** Normalize.__call__ and Lighting.__call__, for distinct image fields:
    each field is replaced by what mmcv makes of it; Normalize also
    records its parameters under 'img_norm_cfg'; no other key changes, and
    'img_shape' in particular is neither read nor written. *)
Theorem Normalize_Lighting_store :
  forall (nself : Normalize.t float) (lself : Lighting.t float)
         (results : dict) keys,
    img_fields results = Done keys -> NoDup keys ->
    (forall results',
       Normalize_call imnormalize nself results = Done results' ->
       results' !! "img_norm_cfg"
       = Some (NormCfg (Normalize.mean nself) (Normalize.std nself)
                       (Normalize.to_rgb nself)) /\
       (forall k, k ∉ keys -> k <> "img_norm_cfg" ->
          results' !! k = results !! k) /\
       (forall k, k ∈ keys -> k <> "img_norm_cfg" -> exists v img,
          results !! k = Some v /\
          imnormalize v (Normalize.mean nself) (Normalize.std nself)
                      (Normalize.to_rgb nself) = Done img /\
          results' !! k = Some (Array img))) /\
    (forall results',
       Lighting_call adjust_lighting lself results = Done results' ->
       (forall k, k ∉ keys -> results' !! k = results !! k) /\
       (forall k, k ∈ keys -> exists v img,
          results !! k = Some v /\
          adjust_lighting v (Lighting.eigval lself) (Lighting.eigvec lself)
            (Lighting.alphastd lself) (Lighting.to_rgb lself) = Done img /\
          results' !! k = Some (Array img))).
Proof.
  intros nself lself results keys Hkeys Hnd. split.
  - intros results' H. unfold Normalize_call in H. rewrite Hkeys in H.
    simpl in H. bind_done H as r1 Hr. injection H as <-.
    eapply (foreach_store
              (fun v => imnormalize v (Normalize.mean nself)
                          (Normalize.std nself) (Normalize.to_rgb nself))
              (fun _ => False)) in Hr; [| |done|].
    + destruct Hr as [H1 H2]. split; [apply lookup_insert_eq|]. split.
      * intros k Hk Hne. rewrite lookup_insert_ne by done.
        apply H1; [done | tauto].
      * intros k Hk Hne. destruct (H2 k Hk) as (v & img & Hv & Hf & Hres).
        exists v, img. by rewrite lookup_insert_ne.
    + intros key r r' _ Hb. bind_done Hb as v Hv. bind_done Hb as img Himg.
      injection Hb as <-. apply lookup_key_Done in Hv.
      exists v, img. split; [done|]. split; [done|]. split.
      * apply lookup_insert_eq.
      * intros k Hk _. by rewrite lookup_insert_ne.
    + apply Forall_forall. tauto.
  - intros results' H. unfold Lighting_call in H. rewrite Hkeys in H.
    simpl in H.
    eapply (foreach_store
              (fun v => adjust_lighting v (Lighting.eigval lself)
                          (Lighting.eigvec lself) (Lighting.alphastd lself)
                          (Lighting.to_rgb lself))
              (fun _ => False)) in H; [| |done|].
    + destruct H as [H1 H2]. split; [|done].
      intros k Hk. apply H1; [done | tauto].
    + intros key r r' _ Hb. bind_done Hb as v Hv. bind_done Hb as img Himg.
      injection Hb as <-. apply lookup_key_Done in Hv.
      exists v, img. split; [done|]. split; [done|]. split.
      * apply lookup_insert_eq.
      * intros k Hk _. by rewrite lookup_insert_ne.
    + apply Forall_forall. tauto.
Qed.

End NormalizeFacts.

Section TransformsWitness.
Import Pipelines PipelineSamples.
Local Open Scope string_scope.

Lemma RandomGrayscale_converts_one_field_witness :
  exists keys,
    img_fields two_images = Done keys /\
    ((<["img" := Array [4; 6; 3]%Z]> two_images = two_images /\
      forall j key, keys !! j = Some key ->
        not_converted (fun s : list Z => s) (fun _ => true) two_images j key) \/
     (exists j key img n gray,
        keys !! j = Some key /\
        (forall j' key', j' < j -> keys !! j' = Some key' ->
           not_converted (fun s : list Z => s) (fun _ => true) two_images
             j' key') /\
        two_images !! key = Some (Array img) /\ img !! 2 = Some n /\
        true = true /\ (1 < n)%Z /\ sample_gray_stack img n = Done gray /\
        <["img" := Array [4; 6; 3]%Z]> two_images
        = <[key := Array gray]> two_images)).
Proof.
  apply (RandomGrayscale_converts_one_field (fun s => s) sample_gray_stack
           (fun _ => true) two_images). reflexivity.
Defined.

Lemma Pad_call_spec_witness :
  exists img : list Z,
    <["img_shape" := Ints [6; 6; 3]%Z]>
      (<["img" := Array [6; 6; 3]%Z]> one_image) !! "img"
    = Some (Array img) /\
    <["img_shape" := Ints [6; 6; 3]%Z]>
      (<["img" := Array [6; 6; 3]%Z]> one_image) !! "img_shape"
    = Some (Ints img).
Proof.
  exact (proj2 (proj2
    (Pad_call_spec (fun s => s) sample_impad_shape None true [0%Z] "constant"
       sample_pad one_image
       (<["img_shape" := Ints [6; 6; 3]%Z]>
          (<["img" := Array [6; 6; 3]%Z]> one_image))
       ["img"] eq_refl eq_refl
       ltac:(apply (bool_decide_unpack _); by vm_compute)
       ltac:(apply (bool_decide_unpack _); by vm_compute)
       eq_refl))).
Defined.

Lemma edge_scale_keeps_edge_witness :
  exists width height,
    edge_scale sample_wide_quotient sample_resize 6 4 = Done (width, height) /\
    (width = 2 /\ height = 2 * 6 / 4 \/ height = 2 /\ width = 2 * 4 / 6)%Z /\
    "short" ∈ ["short"; "long"; "width"; "height"] /\
    ("short" = "short" -> Z.min width height = 2%Z) /\
    ("short" = "long" -> Z.max width height = 2%Z) /\
    ("short" = "width" -> width = 2%Z) /\
    ("short" = "height" -> height = 2%Z).
Proof.
  apply (edge_scale_keeps_edge sample_wide_quotient 2 "short" "cv2"
           "bilinear" sample_resize 6 4); [reflexivity | lia..].
Defined.

Lemma ResizeEdge_transform_empty_side_witness :
  ResizeEdge_transform (fun s : list Z => s) sample_imresize_scale
    sample_wide_quotient sample_resize empty_image
  = Throw ZeroDivisionError.
Proof.
  apply (ResizeEdge_transform_empty_side (fun s => s) sample_imresize_scale
           sample_wide_quotient sample_resize empty_image [0; 6; 3]%Z
           0%Z 6%Z [3%Z]); try reflexivity; lia.
Defined.

Lemma Normalize_Lighting_store_witness :
  <["img_norm_cfg" := NormCfg [151; 102; 97]%Z [70; 55; 54]%Z true]>
    (<["img" := Array [4; 6; 3]%Z]> one_image) !! "img_norm_cfg"
  = Some (NormCfg [151; 102; 97]%Z [70; 55; 54]%Z true).
Proof.
  exact (proj1 (proj1
    (Normalize_Lighting_store sample_imnormalize sample_adjust_lighting
       sample_normalize sample_lighting one_image ["img"] eq_refl
       ltac:(apply (bool_decide_unpack _); by vm_compute))
    (<["img_norm_cfg" := NormCfg [151; 102; 97]%Z [70; 55; 54]%Z true]>
       (<["img" := Array [4; 6; 3]%Z]> one_image))
    eq_refl)).
Defined.

(** The sample image of 4 by 6 pixels, resized along its short edge to 2:
    'scale' first holds the requested (3, 2), then the size of the result. *)
Lemma ResizeEdge_transform_sample :
  ResizeEdge_transform (fun s : list Z => s) sample_imresize_scale
    sample_wide_quotient sample_resize one_image
  = Done (<["scale_factor" := Floats [3; 2]%Z]>
            (<["scale" := Ints [3; 2]%Z]>
               (<["img_shape" := Ints [2; 3]%Z]>
                  (<["img" := Array [2; 3; 3]%Z]>
                     (<["scale" := Ints [3; 2]%Z]> one_image))))).
Proof. reflexivity. Qed.

End TransformsWitness.
